(** * scripts/add_widget_target.py: a shallow embedding and its properties

    The script loads the Xcode project descriptor through the [pbxproj]
    library, returns early when a target named [DequeueWidgets] is already
    there, otherwise asks the library to add every shared source file that
    exists on disk to the [Dequeue] target, saves the handle and prints
    follow-up instructions.

    The embedding keeps the shape of the source:
    - POSIX [os.path.dirname] and [os.path.join] are functions on strings;
    - the module-level constants are a record of globals, which [main]
      reads when it runs (as Python does);
    - the [pbxproj] library is not part of the repository: it is an
      interface ([PbxLibrary]) whose operations may return or raise;
    - [main] runs in a state-and-exception monad over the process state
      (disk, argv, environment) and a chronological trace of every print
      and of every call that leaves the script.

    Boundaries of the model:
    - [os.path.abspath(__file__)] is taken as given ([abs_file]);
    - the import statements and [sys.path.insert] of the module body run
      before [main] and are not modelled;
    - the project handle is one Python object updated in place by
      [add_file]; [main] holds the only reference, so the handle is
      passed along;
    - of the library calls only [save] writes the disk; [load] and
      [add_file] read it. *)

From Stdlib Require Import Ascii ZArith.
From stdpp Require Import base strings gmap list.

(** ** POSIX path functions used by the script *)

Module OsPath.

Definition sep : ascii := "/"%char.

Definition is_sep (c : ascii) : bool := Ascii.eqb c sep.

(** [b.startswith('/')] *)
Definition startswith_sep (s : string) : bool :=
  match s with
  | String c _ => is_sep c
  | EmptyString => false
  end.

(** [path.endswith('/')] *)
Fixpoint endswith_sep (s : string) : bool :=
  match s with
  | EmptyString => false
  | String c EmptyString => is_sep c
  | String _ r => endswith_sep r
  end.

Definition is_empty (s : string) : bool :=
  match s with EmptyString => true | _ => false end.

(** One round of the loop of [posixpath.join]: an absolute component
    replaces what came before, otherwise it is appended, with a
    separator unless the path is empty or already ends with one. *)
Definition join_step (path b : string) : string :=
  if startswith_sep b then b
  else if is_empty path || endswith_sep path then path +:+ b
  else path +:+ String sep b.

(** [os.path.join(a, *p)] *)
Definition join (a : string) (p : list string) : string :=
  fold_left join_step p a.

Fixpoint drop_while (f : ascii -> bool) (l : list ascii) : list ascii :=
  match l with
  | [] => []
  | c :: r => if f c then drop_while f r else l
  end.

(** [posixpath.dirname]: [head = p[:p.rfind('/') + 1]], and trailing
    separators are stripped from [head] unless it consists of
    separators only. *)
Definition dirname (p : string) : string :=
  let head :=
    rev (drop_while (fun c => negb (is_sep c))
           (rev (String.list_ascii_of_string p))) in
  let head' :=
    if forallb is_sep head then head
    else rev (drop_while is_sep (rev head)) in
  String.string_of_list_ascii head'.

End OsPath.

(** ** Values and the process state *)

(** A raised Python exception, identified by its text. *)
Definition Exn : Type := string.

(** The outcome of a call: it returns a value or raises. *)
Inductive Result (A : Type) : Type :=
| Ok (a : A)
| Raise (e : Exn).
Arguments Ok {A} a.
Arguments Raise {A} e.

(** The Python values [add_file] hands back: [None], a bool, or a list of
    build-file identifiers. *)
Inductive PyVal : Type :=
| PyNone
| PyBool (b : bool)
| PyList (items : list string).

(** Truth value of a [PyVal] in an [if]. *)
Definition truthy (v : PyVal) : bool :=
  match v with
  | PyNone => false
  | PyBool b => b
  | PyList [] => false
  | PyList (_ :: _) => true
  end.

(** A build target as the script sees it: an object with a [name]. *)
Record Target : Type := mkTarget { name : string }.

(** The disk: a finite map from absolute paths to file contents. *)
Abbreviation FS := (gmap string string).

(** [os.path.exists] *)
Definition path_exists (d : FS) (p : string) : bool :=
  bool_decide (is_Some (d !! p)).

(** Everything observable that [main] does, in order. *)
Inductive Event : Type :=
| EvPrint (line : string)
| EvLoad (path : string)
| EvGetTargets
| EvExists (path : string) (found : bool)
| EvAddFile (path : string) (parent : option string) (target_name : string)
            (returned : option PyVal)
| EvSave.

Record World : Type := mkWorld {
  disk : FS;
  argv : list string;
  environ : gmap string string;
  trace : list Event
}.

Definition log (e : Event) (w : World) : World :=
  mkWorld (disk w) (argv w) (environ w) (trace w ++ [e]).

Definition with_disk (d : FS) (w : World) : World :=
  mkWorld d (argv w) (environ w) (trace w).

(** Lines written to standard output, oldest first. *)
Fixpoint stdout (t : list Event) : list string :=
  match t with
  | [] => []
  | EvPrint l :: r => l :: stdout r
  | _ :: r => stdout r
  end.

(** ** The [pbxproj] surface the script consumes *)

Record PbxLibrary : Type := mkLib {
  Project : Type;
  (** [XcodeProject.load(path)]: reads the disk. *)
  lib_load : string -> FS -> Result Project;
  (** [project.objects.get_targets()] *)
  lib_get_targets : Project -> Result (list Target);
  (** [project.add_file(path, parent=, target_name=)]: may look at the
      disk, updates the handle in place and returns a value. *)
  lib_add_file :
    string -> option string -> string -> FS -> Project ->
    Result (Project * PyVal);
  (** [project.save()]: writes the disk, also when it raises. *)
  lib_save : Project -> FS -> Result unit * FS
}.

(** ** State-and-exception monad *)

Definition M (A : Type) : Type := World -> Result A * World.

Definition ret {A} (a : A) : M A := fun w => (Ok a, w).

Definition bind {A B} (m : M A) (k : A -> M B) : M B :=
  fun w =>
    match m w with
    | (Ok a, w') => k a w'
    | (Raise e, w') => (Raise e, w')
    end.

Notation "x <- c1 ;; c2" := (bind c1 (fun x => c2))
  (at level 100, c1 at next level, right associativity).
Notation "c1 ;; c2" := (bind c1 (fun _ => c2))
  (at level 100, right associativity).

Definition print (line : string) : M unit :=
  fun w => (Ok tt, log (EvPrint line) w).

Definition os_path_exists (p : string) : M bool :=
  fun w => let b := path_exists (disk w) p in (Ok b, log (EvExists p b) w).

Section Calls.
Context (L : PbxLibrary).

Definition XcodeProject_load (path : string) : M (Project L) :=
  fun w => (lib_load L path (disk w), log (EvLoad path) w).

Definition get_targets (project : Project L) : M (list Target) :=
  fun w => (lib_get_targets L project, log EvGetTargets w).

Definition add_file (project : Project L) (path : string)
    (parent : option string) (target_name : string)
  : M (Project L * PyVal) :=
  fun w =>
    let r := lib_add_file L path parent target_name (disk w) project in
    let returned := match r with Ok (_, v) => Some v | Raise _ => None end in
    (r, log (EvAddFile path parent target_name returned) w).

Definition save (project : Project L) : M unit :=
  fun w =>
    let '(r, d) := lib_save L project (disk w) in
    (r, with_disk d (log EvSave w)).
End Calls.

(** ** Module globals *)

Record Globals : Type := mkGlobals {
  (** the value of [os.path.abspath(__file__)] *)
  abs_file : string;
  PROJECT_PATH : string;
  WIDGET_TARGET_NAME : string;
  WIDGET_BUNDLE_ID : string;
  WIDGET_SOURCES : list string;
  SHARED_SOURCES : list string
}.

(** [os.path.dirname(os.path.dirname(os.path.abspath(__file__)))] *)
Definition project_root (file : string) : string :=
  OsPath.dirname (OsPath.dirname file).

(** The globals as the module body binds them (lines 16-35). *)
Definition module_globals (file : string) : Globals := {|
  abs_file := file;
  PROJECT_PATH :=
    OsPath.join (project_root file)
      ["Dequeue"; "Dequeue.xcodeproj"; "project.pbxproj"];
  WIDGET_TARGET_NAME := "DequeueWidgets";
  WIDGET_BUNDLE_ID := "com.ardonos.Dequeue.widgets";
  WIDGET_SOURCES :=
    [ "DequeueWidgets/DequeueWidgetBundle.swift";
      "DequeueWidgets/ActiveStackWidget.swift";
      "DequeueWidgets/UpNextWidget.swift";
      "DequeueWidgets/QuickStatsWidget.swift" ];
  SHARED_SOURCES := [ "Shared/WidgetModels.swift" ]
|}.

(** ** The script *)

Section Script.
Context (L : PbxLibrary) (g : Globals).

(** Lines 52-55: the absolute path of a listed source. *)
Definition full_path (source : string) : string :=
  OsPath.join (project_root (abs_file g)) ["Dequeue"; source].

(** Lines 42-45.  The result says whether the [return] of line 45 was
    taken. *)
Fixpoint scan_targets (targets : list Target) : M bool :=
  match targets with
  | [] => ret false
  | target :: rest =>
      if String.eqb (name target) (WIDGET_TARGET_NAME g) then
        print ("Target '" +:+ WIDGET_TARGET_NAME g
                 +:+ "' already exists. Skipping.") ;;
        ret true
      else scan_targets rest
  end.

(** Lines 52-66: one round of the loop over [SHARED_SOURCES]. *)
Definition add_shared_one (project : Project L) (source : string)
  : M (Project L) :=
  found <- os_path_exists (full_path source) ;;
  if found then
    r <- add_file L project (full_path source) None "Dequeue" ;;
    (if truthy (snd r)
     then print ("  Added " +:+ source +:+ " to Dequeue target")
     else print ("  " +:+ source +:+ " may already exist in project")) ;;
    ret (fst r)
  else ret project.

(** Lines 51-66. *)
Fixpoint add_shared (sources : list string) (project : Project L)
  : M (Project L) :=
  match sources with
  | [] => ret project
  | source :: rest =>
      project' <- add_shared_one project source ;;
      add_shared rest project'
  end.

(** Lines 78-79. *)
Fixpoint print_widget_sources (sources : list string) : M unit :=
  match sources with
  | [] => ret tt
  | source :: rest =>
      print ("  - Dequeue/" +:+ source) ;;
      print_widget_sources rest
  end.

(** Lines 71-80. *)
Definition print_instructions : M unit :=
  print "Done! Shared files added to main Dequeue target." ;;
  print EmptyString ;;
  print "NOTE: The widget extension target (DequeueWidgets) needs to be added" ;;
  print "through Xcode: File > New > Target > Widget Extension." ;;
  print "Then add the widget source files to that target." ;;
  print EmptyString ;;
  print "Widget files to add:" ;;
  print_widget_sources (WIDGET_SOURCES g) ;;
  print "  - Dequeue/Shared/WidgetModels.swift (add to BOTH targets)".

(** Lines 37-80. *)
Definition main : M unit :=
  print ("Loading project: " +:+ PROJECT_PATH g) ;;
  project <- XcodeProject_load L (PROJECT_PATH g) ;;
  targets <- get_targets L project ;;
  returned <- scan_targets targets ;;
  if returned then ret tt
  else
    print "Adding widget source files..." ;;
    project' <- add_shared (SHARED_SOURCES g) project ;;
    print "Saving project..." ;;
    save L project' ;;
    print_instructions.

End Script.

Global Arguments full_path : simpl never.
Global Arguments project_root : simpl never.

(** Running the script file: the module body binds the globals, then
    [main()] is called on a fresh trace. *)
Definition run_script (L : PbxLibrary) (file : string) (w : World)
  : Result unit * World :=
  main L (module_globals file) w.

(** Exit status the interpreter reports: 0 when [main] returns, 1 when an
    exception reaches the top level. *)
Definition exit_status (r : Result unit) : Z :=
  match r with
  | Ok _ => 0%Z
  | Raise _ => 1%Z
  end.

(** ** A small executable library model

    [Mock.lib force] is a stand-in for [pbxproj] with a descriptor format of
    its own: a text of statements, each closed by a semicolon, either
    [target NAME] or [file TARGET PATH].  A handle remembers the path it
    was loaded from and carries the text.  [add_file] appends a [file]
    statement; with [force = false] it first looks for that statement and,
    when it is there, leaves the handle alone and returns the empty list.
    With [force = true] it appends without looking. *)

Module Mock.

Record handle : Type := mkHandle { pbx_path : string; text : string }.

Fixpoint contains (e s : string) : bool :=
  String.prefix e s ||
  match s with
  | EmptyString => false
  | String _ r => contains e r
  end.

Fixpoint statements_go (cur s : string) : list string :=
  match s with
  | EmptyString => []
  | String c r =>
      if Ascii.eqb c ";"%char then String.rev cur :: statements_go EmptyString r
      else statements_go (String c cur) r
  end.

Definition statements (s : string) : list string :=
  statements_go EmptyString s.

Fixpoint strip_prefix (p s : string) : option string :=
  match p, s with
  | EmptyString, _ => Some s
  | String a p', String b s' =>
      if Ascii.eqb a b then strip_prefix p' s' else None
  | String _ _, EmptyString => None
  end.

Definition entry (target_name path : string) : string :=
  "file " +:+ target_name +:+ " " +:+ path +:+ ";".

Definition load (path : string) (d : FS) : Result handle :=
  match d !! path with
  | Some s => Ok (mkHandle path s)
  | None => Raise ("FileNotFoundError: " +:+ path)
  end.

Definition targets (h : handle) : Result (list Target) :=
  Ok (mkTarget <$> omap (strip_prefix "target ") (statements (text h))).

Definition add (force : bool) (path : string) (parent : option string)
    (target_name : string) (d : FS) (h : handle)
  : Result (handle * PyVal) :=
  if negb force && contains (entry target_name path) (text h)
  then Ok (h, PyList [])
  else Ok (mkHandle (pbx_path h) (text h +:+ entry target_name path),
           PyList [path]).

Definition write (h : handle) (d : FS) : Result unit * FS :=
  (Ok tt, <[pbx_path h := text h]> d).

Definition lib (force : bool) : PbxLibrary :=
  mkLib handle load targets (add force) write.

(** A library whose [get_targets] raises. *)
Definition failing_targets : PbxLibrary :=
  mkLib handle load (fun _ => Raise "AttributeError: objects")
    (add false) write.

(** A library whose [add_file] raises. *)
Definition failing_add : PbxLibrary :=
  mkLib handle load targets
    (fun _ _ _ _ _ => Raise "KeyError: target")
    write.

(** A library whose [save] raises before it writes. *)
Definition failing_save : PbxLibrary :=
  mkLib handle load targets (add false)
    (fun _ d => (Raise "PermissionError", d)).

Definition script : string := "/repo/scripts/add_widget_target.py".
Definition pbxproj : string :=
  "/repo/Dequeue/Dequeue.xcodeproj/project.pbxproj".
Definition shared : string := "/repo/Dequeue/Shared/WidgetModels.swift".

(** A checkout with the app target only and the shared source present. *)
Definition disk0 : FS :=
  {[ pbxproj := "target Dequeue;target DequeueTests;";
     shared := "import WidgetKit" ]}.

(** The same checkout without the shared source. *)
Definition disk_missing : FS :=
  {[ pbxproj := "target Dequeue;target DequeueTests;" ]}.

(** A checkout in which the widget target was created by hand. *)
Definition disk_widget : FS :=
  {[ pbxproj := "target Dequeue;target DequeueWidgets;";
     shared := "import WidgetKit" ]}.





Definition boot (d : FS) : World := mkWorld d [script] ∅ [].

End Mock.

(** ** Vocabulary of the statements

    What follows is not translated from the source.  These are the terms
    in which the properties are stated: projections of traces, the
    outcome of the loop and of [main] as functions of the disk (tied to
    the embedding by [add_shared_run] and [main_run] below), and the laws
    asked of a library. *)

(** [ends_with tail s]: the string [s] ends with [tail]. *)
Definition ends_with (tail s : string) : Prop := exists x, s = x +:+ tail.

(** [emit evs w]: the world [w] after the events [evs] were recorded. *)
Definition emit (evs : list Event) (w : World) : World :=
  mkWorld (disk w) (argv w) (environ w) (trace w ++ evs).


(** The add-file calls of a trace, in order: path, parent, target name. *)
Fixpoint added_calls (t : list Event)
  : list (string * option string * string) :=
  match t with
  | [] => []
  | EvAddFile p parent target_name _ :: r =>
      (p, parent, target_name) :: added_calls r
  | _ :: r => added_calls r
  end.


Section OutcomeDefs.
Context (L : PbxLibrary) (g : Globals).

(** Line 43 holds for some target of the list. *)
Definition guard_fires (targets : list Target) : bool :=
  existsb (fun t => String.eqb (name t) (WIDGET_TARGET_NAME g)) targets.

Definition skip_message : string :=
  "Target '" +:+ WIDGET_TARGET_NAME g +:+ "' already exists. Skipping.".

(** The handle after the library added, in list order, every listed
    source that exists on disk; the first raising call ends it. *)
Fixpoint added_handle (sources : list string) (d : FS) (pr : Project L)
  : Result (Project L) :=
  match sources with
  | [] => Ok pr
  | s :: rest =>
      if path_exists d (full_path g s) then
        match lib_add_file L (full_path g s) None "Dequeue" d pr with
        | Ok (pr', _) => added_handle rest d pr'
        | Raise e => Raise e
        end
      else added_handle rest d pr
  end.

Definition added_line (source : string) : string :=
  "  Added " +:+ source +:+ " to Dequeue target".

Definition exists_line (source : string) : string :=
  "  " +:+ source +:+ " may already exist in project".

(** The events of the loop as step 4 of the specification words them:
    for each path of the list, in order, an existence check; when the
    file is present, one add-file call for the target [Dequeue]; then
    the success line or the already-exists line, by the truth value of
    what the call returned. *)
Fixpoint expected_loop_trace (sources : list string) (d : FS)
    (pr : Project L) : list Event :=
  match sources with
  | [] => []
  | s :: rest =>
      if path_exists d (full_path g s) then
        match lib_add_file L (full_path g s) None "Dequeue" d pr with
        | Ok (pr', v) =>
            [ EvExists (full_path g s) true;
              EvAddFile (full_path g s) None "Dequeue" (Some v);
              EvPrint (if truthy v then added_line s else exists_line s) ]
            ++ expected_loop_trace rest d pr'
        | Raise e =>
            [ EvExists (full_path g s) true;
              EvAddFile (full_path g s) None "Dequeue" None ]
        end
      else EvExists (full_path g s) false :: expected_loop_trace rest d pr
  end.

Definition instruction_events : list Event :=
  [ EvPrint "Done! Shared files added to main Dequeue target.";
    EvPrint EmptyString;
    EvPrint "NOTE: The widget extension target (DequeueWidgets) needs to be added";
    EvPrint "through Xcode: File > New > Target > Widget Extension.";
    EvPrint "Then add the widget source files to that target.";
    EvPrint EmptyString;
    EvPrint "Widget files to add:" ]
  ++ map (fun s => EvPrint ("  - Dequeue/" +:+ s)) (WIDGET_SOURCES g)
  ++ [ EvPrint "  - Dequeue/Shared/WidgetModels.swift (add to BOTH targets)" ].

Definition head_events : list Event :=
  [ EvPrint ("Loading project: " +:+ PROJECT_PATH g);
    EvLoad (PROJECT_PATH g) ].

(** Result, final disk and events of [main] started on the disk [d]. *)
Definition main_outcome (d : FS) : Result unit * FS * list Event :=
  match lib_load L (PROJECT_PATH g) d with
  | Raise e => (Raise e, d, head_events)
  | Ok pr =>
      match lib_get_targets L pr with
      | Raise e => (Raise e, d, head_events ++ [EvGetTargets])
      | Ok ts =>
          if guard_fires ts then
            (Ok tt, d, head_events ++ [EvGetTargets; EvPrint skip_message])
          else
            let upto_loop :=
              head_events
              ++ [EvGetTargets; EvPrint "Adding widget source files..."]
              ++ expected_loop_trace (SHARED_SOURCES g) d pr in
            match added_handle (SHARED_SOURCES g) d pr with
            | Raise e => (Raise e, d, upto_loop)
            | Ok pr1 =>
                let upto_save :=
                  upto_loop ++ [EvPrint "Saving project..."; EvSave] in
                match lib_save L pr1 d with
                | (Raise e, d') => (Raise e, d', upto_save)
                | (Ok _, d') => (Ok tt, d', upto_save ++ instruction_events)
                end
            end
      end
  end.

(** Every event of the loop is an existence check, an add-file call for
    the target [Dequeue] with no parent, or a print; each names a listed
    source. *)
Definition loop_event (sources : list string) (ev : Event) : Prop :=
  match ev with
  | EvExists p _ => exists s, In s sources /\ p = full_path g s
  | EvAddFile p parent t _ =>
      parent = None /\ t = "Dequeue" /\
      exists s, In s sources /\ p = full_path g s
  | EvPrint _ => True
  | _ => False
  end.

End OutcomeDefs.

(** [p] is a widget source, as listed or resolved against the project
    root. *)
Definition names_widget_source (file p : string) : Prop :=
  exists s, In s (WIDGET_SOURCES (module_globals file)) /\
            (p = s \/ p = full_path (module_globals file) s).

(** An event through which no widget source and no target but [Dequeue]
    reaches the disk or the library. *)
Definition widget_free (file : string) (ev : Event) : Prop :=
  match ev with
  | EvPrint _ | EvGetTargets | EvSave => True
  | EvLoad p | EvExists p _ => ~ names_widget_source file p
  | EvAddFile p _ t _ =>
      t = "Dequeue" /\ t <> "DequeueWidgets" /\ ~ names_widget_source file p
  end.

(** [g] with another bundle identifier. *)
Definition with_bundle_id (bundle_id : string) (g : Globals) : Globals :=
  mkGlobals (abs_file g) (PROJECT_PATH g) (WIDGET_TARGET_NAME g) bundle_id
    (WIDGET_SOURCES g) (SHARED_SOURCES g).

(** [settled L pr p]: on the handle [pr], adding [p] to the target
    [Dequeue] reports an existing file (returns a falsy value) and leaves
    the handle as it is, whatever the disk. *)
Definition settled (L : PbxLibrary) (pr : Project L) (p : string) : Prop :=
  forall d, exists v,
    lib_add_file L p None "Dequeue" d pr = Ok (pr, v) /\ truthy v = false.

(** What idempotence of the script asks of the library, for handles
    [bound] to the descriptor path [P]: [add_file] does not add a file
    twice, and [save] writes the descriptor only, in a form that [load]
    reads back and that saving again does not change. *)
Record deduplicating (L : PbxLibrary) (P : string)
    (bound : Project L -> Prop) : Prop := {
  load_bound : forall d pr, lib_load L P d = Ok pr -> bound pr;
  targets_return : forall pr, bound pr -> exists ts, lib_get_targets L pr = Ok ts;
  add_bound : forall p d pr pr' v,
    bound pr -> lib_add_file L p None "Dequeue" d pr = Ok (pr', v) -> bound pr';
  add_settles : forall p d pr pr' v,
    lib_add_file L p None "Dequeue" d pr = Ok (pr', v) -> settled L pr' p;
  add_keeps_settled : forall p q d pr pr' v,
    settled L pr p ->
    lib_add_file L q None "Dequeue" d pr = Ok (pr', v) -> settled L pr' p;
  save_frame : forall pr d d' r p,
    bound pr -> lib_save L pr d = (r, d') -> p <> P -> d' !! p = d !! p;
  save_load : forall pr d d',
    bound pr -> lib_save L pr d = (Ok tt, d') -> lib_load L P d' = Ok pr;
  save_again : forall pr d d',
    bound pr -> lib_save L pr d = (Ok tt, d') -> lib_save L pr d' = (Ok tt, d')
}.

(** An event that is no add-file call, or an add-file call that returned
    a falsy value. *)
Definition reports_existing (ev : Event) : Prop :=
  match ev with
  | EvAddFile _ _ _ returned =>
      exists v, returned = Some v /\ truthy v = false
  | _ => True
  end.

(** [sep_free s]: no separator occurs in [s]. *)
Definition sep_free (s : string) : bool :=
  forallb (fun c => negb (OsPath.is_sep c)) (String.list_ascii_of_string s).

(** The directory under which the module body (lines 16-19) puts the
    descriptor bundle and [main] (lines 52-55) the listed sources. *)
Definition source_base (file : string) : string :=
  OsPath.join (project_root file) ["Dequeue"].

Definition is_print (ev : Event) : bool :=
  match ev with
  | EvPrint _ => true
  | _ => false
  end.

(** The add-file calls the loop makes when no call raises: one per listed
    source found on disk, in list order. *)
Definition calls_for_present (g : Globals) (d : FS)
  : list (string * option string * string) :=
  map (fun s => (full_path g s, None, "Dequeue"))
    (List.filter (fun s => path_exists d (full_path g s)) (SHARED_SOURCES g)).


(** * Properties *)

(** ** Strings and paths *)

Section StringFacts.

Lemma str_app_cons (c : ascii) (a b : string) :
  String c a +:+ b = String c (a +:+ b).
Proof. reflexivity. Qed.

Lemma str_app_assoc (a b c : string) : (a +:+ b) +:+ c = a +:+ (b +:+ c).
Proof.
  induction a as [|x a IH]; [reflexivity|].
  by rewrite !str_app_cons, IH.
Qed.

Lemma str_length_app (a b : string) :
  String.length (a +:+ b) = String.length a + String.length b.
Proof.
  induction a as [|x a IH]; [reflexivity|].
  rewrite str_app_cons. cbn. by rewrite IH.
Qed.

(** Equal strings have equal tails of a given length. *)
Lemma str_app_inj_tail (x y s t : string) :
  String.length s = String.length t -> x +:+ s = y +:+ t -> s = t.
Proof.
  intros Hlen. revert y.
  induction x as [|c x IH]; intros [|c' y] Heq.
  - done.
  - apply (f_equal String.length) in Heq.
    change (String.length s = String.length (String c' (y +:+ t))) in Heq.
    cbn in Heq. rewrite str_length_app in Heq. lia.
  - apply (f_equal String.length) in Heq.
    change (String.length (String c (x +:+ s)) = String.length t) in Heq.
    cbn in Heq. rewrite str_length_app in Heq. lia.
  - rewrite !str_app_cons in Heq. injection Heq as _ Heq. by apply (IH y).
Qed.

End StringFacts.

Lemma ends_with_app (x tail : string) : ends_with tail (x +:+ tail).
Proof. by exists x. Qed.

Lemma ends_with_trans (t1 t2 s : string) :
  ends_with t1 t2 -> ends_with t2 s -> ends_with t1 s.
Proof.
  intros [x ->] [y ->]. exists (y +:+ x). by rewrite str_app_assoc.
Qed.

Lemma ends_with_neq (t1 t2 s1 s2 : string) :
  ends_with t1 s1 -> ends_with t2 s2 ->
  String.length t1 = String.length t2 -> t1 <> t2 -> s1 <> s2.
Proof.
  intros [x ->] [y ->] Hlen Hne Heq. apply Hne.
  by apply (str_app_inj_tail x y).
Qed.

(** A relative last component survives [os.path.join] as the tail of the
    result. *)
Lemma join_step_tail (path b : string) :
  OsPath.startswith_sep b = false -> ends_with b (OsPath.join_step path b).
Proof.
  intros Hb. unfold OsPath.join_step. rewrite Hb.
  destruct (OsPath.is_empty path || OsPath.endswith_sep path).
  - apply ends_with_app.
  - exists (path +:+ String OsPath.sep EmptyString).
    by rewrite str_app_assoc.
Qed.

Lemma join_tail (a : string) (p : list string) (b : string) :
  OsPath.startswith_sep b = false -> ends_with b (OsPath.join a (p ++ [b])).
Proof.
  intros Hb. unfold OsPath.join. rewrite fold_left_app. cbn.
  by apply join_step_tail.
Qed.

Lemma full_path_tail (g : Globals) (source : string) :
  OsPath.startswith_sep source = false -> ends_with source (full_path g source).
Proof. intros Hs. by apply (join_tail _ ["Dequeue"]). Qed.

Lemma project_path_tail (file : string) :
  ends_with "project.pbxproj" (PROJECT_PATH (module_globals file)).
Proof. by apply (join_tail _ ["Dequeue"; "Dequeue.xcodeproj"]). Qed.

(** Every widget source is relative and ends in one of two nine-letter
    tails. *)
Lemma widget_source_shape (file source : string) :
  In source (WIDGET_SOURCES (module_globals file)) ->
  OsPath.startswith_sep source = false /\
  exists tail, ends_with tail source /\
    (tail = "dle.swift" \/ tail = "get.swift").
Proof.
  cbn. intros [<-|[<-|[<-|[<-|[]]]]]; (split; [reflexivity|]).
  - exists "dle.swift". split; [|by left].
    by exists "DequeueWidgets/DequeueWidgetBun".
  - exists "get.swift". split; [|by right].
    by exists "DequeueWidgets/ActiveStackWid".
  - exists "get.swift". split; [|by right].
    by exists "DequeueWidgets/UpNextWid".
  - exists "get.swift". split; [|by right].
    by exists "DequeueWidgets/QuickStatsWid".
Qed.

(** A path with a nine-letter tail other than those two is no widget
    source, neither as listed nor resolved. *)
Lemma not_widget_by_tail (file tail p source : string) :
  ends_with tail p -> String.length tail = 9 ->
  tail <> "dle.swift" -> tail <> "get.swift" ->
  In source (WIDGET_SOURCES (module_globals file)) ->
  p <> source /\ p <> full_path (module_globals file) source.
Proof.
  intros Hp Hlen Hn1 Hn2 Hin.
  destruct (widget_source_shape file source Hin) as (Hrel & t & Ht & Hcase).
  assert (String.length tail = String.length t /\ tail <> t) as [Hl Hne].
  { destruct Hcase as [-> | ->]; by rewrite Hlen. }
  split.
  - by eapply ends_with_neq.
  - eapply ends_with_neq; [exact Hp| |exact Hl|exact Hne].
    eapply ends_with_trans; [exact Ht|by apply full_path_tail].
Qed.

Lemma shared_path_tail (file : string) :
  ends_with "els.swift"
    (full_path (module_globals file) "Shared/WidgetModels.swift").
Proof.
  eapply ends_with_trans; [|by apply full_path_tail].
  by exists "Shared/WidgetMod".
Qed.

Lemma descriptor_path_tail (file : string) :
  ends_with "t.pbxproj" (PROJECT_PATH (module_globals file)).
Proof.
  eapply ends_with_trans; [|apply project_path_tail].
  by exists "projec".
Qed.

Lemma shared_path_not_descriptor (file : string) :
  full_path (module_globals file) "Shared/WidgetModels.swift"
    <> PROJECT_PATH (module_globals file).
Proof.
  eapply (ends_with_neq "els.swift" "t.pbxproj");
    [apply shared_path_tail|apply descriptor_path_tail|reflexivity|discriminate].
Qed.

(** ** Worlds and traces *)

Lemma log_emit (e : Event) (w : World) : log e w = emit [e] w.
Proof. reflexivity. Qed.

Lemma emit_emit (e1 e2 : list Event) (w : World) :
  emit e2 (emit e1 w) = emit (e1 ++ e2) w.
Proof. unfold emit; cbn. by rewrite app_assoc. Qed.

Lemma emit_nil (w : World) : emit [] w = w.
Proof. destruct w; unfold emit; cbn. by rewrite app_nil_r. Qed.

(** ** The embedding computes the outcomes *)

Section Outcome.
Context (L : PbxLibrary) (g : Globals).

Lemma scan_targets_run (ts : list Target) (w : World) :
  scan_targets g ts w =
    if guard_fires g ts then (Ok true, emit [EvPrint (skip_message g)] w)
    else (Ok false, w).
Proof.
  induction ts as [|t ts IH]; cbn; [done|].
  destruct (String.eqb (name t) (WIDGET_TARGET_NAME g)); cbn; [done|].
  apply IH.
Qed.

Lemma add_shared_run (sources : list string) (pr : Project L) (w : World) :
  add_shared L g sources pr w =
    (added_handle L g sources (disk w) pr,
     emit (expected_loop_trace L g sources (disk w) pr) w).
Proof.
  revert pr w. induction sources as [|s rest IH]; intros pr w.
  - cbn. by rewrite emit_nil.
  - change (add_shared L g (s :: rest) pr w)
      with (bind (add_shared_one L g pr s) (add_shared L g rest) w).
    unfold add_shared_one, bind, os_path_exists, add_file, print, ret.
    cbn [added_handle expected_loop_trace].
    destruct (path_exists (disk w) (full_path g s)) eqn:Hex.
    + cbn [disk log].
      destruct (lib_add_file L (full_path g s) None "Dequeue" (disk w) pr)
        as [[pr' v]|e] eqn:Hadd.
      * cbn [fst snd].
        destruct (truthy v); cbv beta iota; rewrite IH; cbn [disk log];
          by rewrite !log_emit, !emit_emit.
      * by rewrite !log_emit, !emit_emit.
    + rewrite IH. cbn [disk log]. by rewrite !log_emit, !emit_emit.
Qed.

Lemma print_widget_sources_run (sources : list string) (w : World) :
  print_widget_sources sources w =
    (Ok tt, emit (map (fun s => EvPrint ("  - Dequeue/" +:+ s)) sources) w).
Proof.
  revert w. induction sources as [|s rest IH]; intros w; cbn.
  - by rewrite emit_nil.
  - unfold bind, print. rewrite IH, log_emit, emit_emit. done.
Qed.

Lemma print_instructions_run (w : World) :
  print_instructions g w = (Ok tt, emit (instruction_events g) w).
Proof.
  unfold print_instructions, bind, print.
  rewrite print_widget_sources_run, !log_emit, !emit_emit. done.
Qed.

(** [main] is [main_outcome] of the disk it starts on; it leaves [argv]
    and the environment alone and only appends to the trace. *)
Lemma main_run (w : World) :
  main L g w =
    let '(r, d', evs) := main_outcome L g (disk w) in
    (r, with_disk d' (emit evs w)).
Proof.
  unfold main, main_outcome, bind, print, XcodeProject_load, get_targets,
    save, ret.
  cbn [disk log].
  destruct (lib_load L (PROJECT_PATH g) (disk w)) as [pr|e];
    [|by rewrite !log_emit, !emit_emit; destruct w].
  destruct (lib_get_targets L pr) as [ts|e];
    [|by rewrite !log_emit, !emit_emit; destruct w].
  rewrite scan_targets_run.
  destruct (guard_fires g ts);
    [by rewrite !log_emit, !emit_emit; destruct w|].
  rewrite add_shared_run. cbn [disk log].
  destruct (added_handle L g (SHARED_SOURCES g) (disk w) pr) as [pr1|e];
    [|by rewrite !log_emit, !emit_emit; destruct w].
  rewrite !log_emit, !emit_emit. cbn [disk emit].
  destruct (lib_save L pr1 (disk w)) as [[[]|e] d'] eqn:Hsave.
  - rewrite print_instructions_run.
    unfold with_disk, emit; cbn [disk argv environ trace].
    by rewrite <- !app_assoc.
  - unfold with_disk, emit; cbn [disk argv environ trace].
    by rewrite <- !app_assoc.
Qed.

End Outcome.

(** ** Facts about the loop over the shared sources *)

Section LoopFacts.
Context (L : PbxLibrary) (g : Globals).

Lemma guard_fires_iff (ts : list Target) :
  guard_fires g ts = true <->
  exists t, In t ts /\ name t = WIDGET_TARGET_NAME g.
Proof.
  unfold guard_fires. rewrite existsb_exists.
  split; intros (t & Hin & Ht); exists t; split; try done.
  - by apply String.eqb_eq.
  - by apply String.eqb_eq.
Qed.

Lemma added_handle_app (pre post : list string) (d : FS) (pr : Project L) :
  added_handle L g (pre ++ post) d pr =
    match added_handle L g pre d pr with
    | Ok pr1 => added_handle L g post d pr1
    | Raise e => Raise e
    end.
Proof.
  revert pr. induction pre as [|s pre IH]; intros pr; cbn; [done|].
  destruct (path_exists d (full_path g s)); [|apply IH].
  destruct (lib_add_file L (full_path g s) None "Dequeue" d pr)
    as [[pr' v]|e]; [apply IH|done].
Qed.

Lemma expected_loop_trace_app (pre post : list string) (d : FS)
    (pr : Project L) :
  expected_loop_trace L g (pre ++ post) d pr =
    expected_loop_trace L g pre d pr ++
    match added_handle L g pre d pr with
    | Ok pr1 => expected_loop_trace L g post d pr1
    | Raise _ => []
    end.
Proof.
  revert pr. induction pre as [|s pre IH]; intros pr; cbn; [done|].
  destruct (path_exists d (full_path g s)); [|by rewrite IH].
  destruct (lib_add_file L (full_path g s) None "Dequeue" d pr)
    as [[pr' v]|e]; [by rewrite IH|done].
Qed.

Lemma loop_event_mono (s : string) (sources : list string) (ev : Event) :
  loop_event g sources ev -> loop_event g (s :: sources) ev.
Proof.
  destruct ev; cbn; try done.
  - intros (s' & Hin & ->). exists s'. auto.
  - intros (-> & -> & s' & Hin & ->). repeat split. exists s'. auto.
Qed.

Lemma expected_loop_trace_events (sources : list string) (d : FS)
    (pr : Project L) :
  Forall (loop_event g sources) (expected_loop_trace L g sources d pr).
Proof.
  revert pr. induction sources as [|s rest IH]; intros pr; cbn; [done|].
  assert (exists s', In s' (s :: rest) /\ full_path g s = full_path g s')
    as Hs by (exists s; cbn; auto).
  destruct (path_exists d (full_path g s)).
  - destruct (lib_add_file L (full_path g s) None "Dequeue" d pr)
      as [[pr' v]|e].
    + repeat (apply Forall_cons; split; [by cbn|]).
      eapply Forall_impl; [apply IH|]. apply loop_event_mono.
    + repeat (apply Forall_cons; split; [by cbn|]). done.
  - apply Forall_cons; split; [by cbn|].
    eapply Forall_impl; [apply IH|]. apply loop_event_mono.
Qed.

Lemma expected_loop_trace_no_save (sources : list string) (d : FS)
    (pr : Project L) :
  ~ In EvSave (expected_loop_trace L g sources d pr).
Proof.
  intros Hin.
  pose proof (expected_loop_trace_events sources d pr) as Hall.
  rewrite Forall_forall in Hall.
  apply list_elem_of_In in Hin. by apply Hall in Hin.
Qed.


End LoopFacts.

(** ** The target-name guard *)

(** C2.  When the loaded project has a target named [DequeueWidgets], the
    script prints the skip message and returns at once: the trace holds
    the load, the target enumeration and two prints, so there is no
    add-file call and no save, and the disk is what it was. *)
Theorem guard_returns_before_any_change
    (L : PbxLibrary) (file : string) (w : World)
    (pr : Project L) (ts : list Target) :
  lib_load L (PROJECT_PATH (module_globals file)) (disk w) = Ok pr ->
  lib_get_targets L pr = Ok ts ->
  (exists t, In t ts /\ name t = "DequeueWidgets") ->
  exists w',
    run_script L file w = (Ok tt, w') /\
    disk w' = disk w /\
    trace w' =
      trace w ++
      [ EvPrint ("Loading project: " +:+ PROJECT_PATH (module_globals file));
        EvLoad (PROJECT_PATH (module_globals file));
        EvGetTargets;
        EvPrint "Target 'DequeueWidgets' already exists. Skipping." ].
Proof.
  intros Hload Htargets Hwidget.
  apply (guard_fires_iff (module_globals file)) in Hwidget.
  unfold run_script. rewrite main_run. unfold main_outcome.
  rewrite Hload, Htargets, Hwidget.
  eexists. split; [reflexivity|]. split; reflexivity.
Qed.

Lemma guard_returns_before_any_change_witness :
  exists w',
    run_script (Mock.lib false) Mock.script (Mock.boot Mock.disk_widget)
      = (Ok tt, w') /\
    disk w' = Mock.disk_widget /\
    trace w' =
      [ EvPrint "Loading project: /repo/Dequeue/Dequeue.xcodeproj/project.pbxproj";
        EvLoad "/repo/Dequeue/Dequeue.xcodeproj/project.pbxproj";
        EvGetTargets;
        EvPrint "Target 'DequeueWidgets' already exists. Skipping." ].
Proof.
  apply (guard_returns_before_any_change
           (Mock.lib false) Mock.script (Mock.boot Mock.disk_widget)
           (Mock.mkHandle Mock.pbxproj "target Dequeue;target DequeueWidgets;")
           [mkTarget "Dequeue"; mkTarget "DequeueWidgets"]).
  - reflexivity.
  - reflexivity.
  - exists (mkTarget "DequeueWidgets"). split; [|reflexivity].
    right. left. reflexivity.
Defined.

(** ** The loop over the shared sources *)



(** C3, as the code has it.  A listed shared source that is not on disk is
    skipped in silence: after the rounds for the sources before it, its
    round records the existence check and nothing else (no add-file call,
    no printed line), raises nothing, keeps the handle, and the loop goes
    on with the sources after it. *)
Theorem missing_source_skipped_silently
    (L : PbxLibrary) (g : Globals) (pre : list string) (s : string)
    (post : list string) (pr pr1 : Project L) (w : World) :
  added_handle L g pre (disk w) pr = Ok pr1 ->
  path_exists (disk w) (full_path g s) = false ->
  add_shared L g (pre ++ s :: post) pr w =
    add_shared L g post pr1
      (emit (expected_loop_trace L g pre (disk w) pr
               ++ [EvExists (full_path g s) false]) w).
Proof.
  intros Hpre Hmissing.
  rewrite !add_shared_run, added_handle_app, expected_loop_trace_app, Hpre.
  cbn [added_handle expected_loop_trace disk emit].
  rewrite Hmissing, emit_emit. by rewrite <- app_assoc.
Qed.

Lemma missing_source_skipped_silently_witness :
  let g := module_globals Mock.script in
  let h := Mock.mkHandle Mock.pbxproj "target Dequeue;target DequeueTests;" in
  add_shared (Mock.lib false) g ["Shared/WidgetModels.swift"] h
    (Mock.boot Mock.disk_missing)
  = (Ok h, emit [EvExists Mock.shared false] (Mock.boot Mock.disk_missing)).
Proof.
  intros g h.
  exact (missing_source_skipped_silently (Mock.lib false) g []
           "Shared/WidgetModels.swift" [] h h (Mock.boot Mock.disk_missing)
           eq_refl eq_refl).
Defined.

(** C3, as the specification words it, fails: with the shared source
    missing the run completes, the loop prints no line at all, and the
    output has nothing between the line that opens the loop and the line
    that announces the save. *)
Lemma missing_source_message_counterexample :
  let g := module_globals Mock.script in
  let h := Mock.mkHandle Mock.pbxproj "target Dequeue;target DequeueTests;" in
  let w := Mock.boot Mock.disk_missing in
  path_exists (disk w) (full_path g "Shared/WidgetModels.swift") = false /\
  (forall line,
     ~ In (EvPrint line)
         (trace (snd (add_shared (Mock.lib false) g (SHARED_SOURCES g) h w)))) /\
  fst (run_script (Mock.lib false) Mock.script w) = Ok tt /\
  stdout (trace (snd (run_script (Mock.lib false) Mock.script w))) =
    [ "Loading project: /repo/Dequeue/Dequeue.xcodeproj/project.pbxproj";
      "Adding widget source files...";
      "Saving project...";
      "Done! Shared files added to main Dequeue target.";
      EmptyString;
      "NOTE: The widget extension target (DequeueWidgets) needs to be added";
      "through Xcode: File > New > Target > Widget Extension.";
      "Then add the widget source files to that target.";
      EmptyString;
      "Widget files to add:";
      "  - Dequeue/DequeueWidgets/DequeueWidgetBundle.swift";
      "  - Dequeue/DequeueWidgets/ActiveStackWidget.swift";
      "  - Dequeue/DequeueWidgets/UpNextWidget.swift";
      "  - Dequeue/DequeueWidgets/QuickStatsWidget.swift";
      "  - Dequeue/Shared/WidgetModels.swift (add to BOTH targets)" ].
Proof.
  cbv zeta. split; [reflexivity|]. split; [|split; reflexivity].
  intros line. vm_compute. intros [Heq|[]]. discriminate Heq.
Qed.

(** ** Failures of the library *)

(** C5.  [main] has no handler, and each failure ends the run where it
    happens.  The whole trace of the failing run is given, so that no
    second attempt and no substitute call can hide in it.  A failure of
    [load] ends the run with that exception right after the call, and so
    does a failure of the target enumeration.  A failure of [add_file]
    for a listed source that is on disk ends the run with that
    exception: after the rounds for the sources before it, the trace
    holds the existence check and that one failed call, and then
    nothing: no second call, no print, no save.  A failure of [save]
    ends the run with that exception: the trace ends with that one save,
    nothing is printed after it, and the disk is as the failed call left
    it. *)
Theorem library_failures_propagate
    (L : PbxLibrary) (g : Globals) (w : World) (e : Exn) :
  (lib_load L (PROJECT_PATH g) (disk w) = Raise e ->
   main L g w =
     (Raise e,
      emit [ EvPrint ("Loading project: " +:+ PROJECT_PATH g);
             EvLoad (PROJECT_PATH g) ] w))
  /\
  (forall pr : Project L,
     lib_load L (PROJECT_PATH g) (disk w) = Ok pr ->
     lib_get_targets L pr = Raise e ->
     main L g w =
       (Raise e,
        emit [ EvPrint ("Loading project: " +:+ PROJECT_PATH g);
               EvLoad (PROJECT_PATH g);
               EvGetTargets ] w))
  /\
  (forall (pr pr1 : Project L) (ts : list Target)
          (pre : list string) (s : string) (post : list string),
     lib_load L (PROJECT_PATH g) (disk w) = Ok pr ->
     lib_get_targets L pr = Ok ts ->
     guard_fires g ts = false ->
     SHARED_SOURCES g = pre ++ s :: post ->
     added_handle L g pre (disk w) pr = Ok pr1 ->
     path_exists (disk w) (full_path g s) = true ->
     lib_add_file L (full_path g s) None "Dequeue" (disk w) pr1 = Raise e ->
     main L g w =
       (Raise e,
        emit ([ EvPrint ("Loading project: " +:+ PROJECT_PATH g);
                EvLoad (PROJECT_PATH g);
                EvGetTargets;
                EvPrint "Adding widget source files..." ]
              ++ expected_loop_trace L g pre (disk w) pr
              ++ [ EvExists (full_path g s) true;
                   EvAddFile (full_path g s) None "Dequeue" None ]) w))
  /\
  (forall (pr pr1 : Project L) (ts : list Target) (d' : FS),
     lib_load L (PROJECT_PATH g) (disk w) = Ok pr ->
     lib_get_targets L pr = Ok ts ->
     guard_fires g ts = false ->
     added_handle L g (SHARED_SOURCES g) (disk w) pr = Ok pr1 ->
     lib_save L pr1 (disk w) = (Raise e, d') ->
     main L g w =
       (Raise e,
        with_disk d'
          (emit ([ EvPrint ("Loading project: " +:+ PROJECT_PATH g);
                   EvLoad (PROJECT_PATH g);
                   EvGetTargets;
                   EvPrint "Adding widget source files..." ]
                 ++ expected_loop_trace L g (SHARED_SOURCES g) (disk w) pr
                 ++ [ EvPrint "Saving project..."; EvSave ]) w))).
Proof.
  split; [|split; [|split]].
  - intros Hload. rewrite main_run. unfold main_outcome. rewrite Hload.
    by destruct w.
  - intros pr Hload Hts. rewrite main_run. unfold main_outcome.
    rewrite Hload, Hts. by destruct w.
  - intros pr pr1 ts pre s post Hload Hts Hguard Hsrc Hpre Hex Hadd.
    rewrite main_run. unfold main_outcome.
    rewrite Hload, Hts, Hguard, Hsrc.
    rewrite added_handle_app, expected_loop_trace_app, Hpre.
    cbn [added_handle expected_loop_trace]. rewrite Hex, Hadd.
    destruct w; unfold with_disk, emit; cbn [disk argv environ trace].
    reflexivity.
  - intros pr pr1 ts d' Hload Hts Hguard Hloop Hsave.
    rewrite main_run. unfold main_outcome.
    rewrite Hload, Hts, Hguard, Hloop, Hsave.
    cbv beta iota zeta. unfold head_events.
    do 3 f_equal; by rewrite <- ?app_assoc.
Qed.

Lemma library_failures_propagate_witness :
  run_script (Mock.lib false) Mock.script (Mock.boot ∅)
    = (Raise "FileNotFoundError: /repo/Dequeue/Dequeue.xcodeproj/project.pbxproj",
       emit [ EvPrint "Loading project: /repo/Dequeue/Dequeue.xcodeproj/project.pbxproj";
              EvLoad Mock.pbxproj ]
         (Mock.boot ∅))
  /\ run_script Mock.failing_targets Mock.script (Mock.boot Mock.disk0)
     = (Raise "AttributeError: objects",
        emit [ EvPrint "Loading project: /repo/Dequeue/Dequeue.xcodeproj/project.pbxproj";
               EvLoad Mock.pbxproj;
               EvGetTargets ]
          (Mock.boot Mock.disk0))
  /\ run_script Mock.failing_add Mock.script (Mock.boot Mock.disk0)
     = (Raise "KeyError: target",
        emit [ EvPrint "Loading project: /repo/Dequeue/Dequeue.xcodeproj/project.pbxproj";
               EvLoad Mock.pbxproj;
               EvGetTargets;
               EvPrint "Adding widget source files...";
               EvExists Mock.shared true;
               EvAddFile Mock.shared None "Dequeue" None ]
          (Mock.boot Mock.disk0))
  /\ run_script Mock.failing_save Mock.script (Mock.boot Mock.disk0)
     = (Raise "PermissionError",
        emit [ EvPrint "Loading project: /repo/Dequeue/Dequeue.xcodeproj/project.pbxproj";
               EvLoad Mock.pbxproj;
               EvGetTargets;
               EvPrint "Adding widget source files...";
               EvExists Mock.shared true;
               EvAddFile Mock.shared None "Dequeue" (Some (PyList [Mock.shared]));
               EvPrint "  Added Shared/WidgetModels.swift to Dequeue target";
               EvPrint "Saving project...";
               EvSave ]
          (Mock.boot Mock.disk0)).
Proof.
  set (g := module_globals Mock.script).
  set (h := Mock.mkHandle Mock.pbxproj "target Dequeue;target DequeueTests;").
  set (ts := [mkTarget "Dequeue"; mkTarget "DequeueTests"]).
  split; [|split; [|split]].
  - exact (proj1 (library_failures_propagate (Mock.lib false) g (Mock.boot ∅)
                    "FileNotFoundError: /repo/Dequeue/Dequeue.xcodeproj/project.pbxproj")
             eq_refl).
  - exact (proj1 (proj2 (library_failures_propagate Mock.failing_targets g
                           (Mock.boot Mock.disk0) "AttributeError: objects"))
             h eq_refl eq_refl).
  - exact (proj1 (proj2 (proj2 (library_failures_propagate Mock.failing_add g
                           (Mock.boot Mock.disk0) "KeyError: target")))
             h h ts [] "Shared/WidgetModels.swift" []
             eq_refl eq_refl eq_refl eq_refl eq_refl eq_refl eq_refl).
  - exact (proj2 (proj2 (proj2 (library_failures_propagate Mock.failing_save g
                           (Mock.boot Mock.disk0) "PermissionError")))
             h (Mock.mkHandle Mock.pbxproj
                  "target Dequeue;target DequeueTests;file Dequeue /repo/Dequeue/Shared/WidgetModels.swift;")
             ts Mock.disk0
             eq_refl eq_refl eq_refl eq_refl eq_refl).
Defined.

(** ** Which paths and targets reach the library *)

Section TraceInvariant.
Context (L : PbxLibrary) (g : Globals) (P : Event -> Prop).
Hypothesis P_print : forall line, P (EvPrint line).
Hypothesis P_load : P (EvLoad (PROJECT_PATH g)).
Hypothesis P_targets : P EvGetTargets.
Hypothesis P_save : P EvSave.
Hypothesis P_loop : forall ev, loop_event g (SHARED_SOURCES g) ev -> P ev.

Lemma instruction_events_forall : Forall P (instruction_events g).
Proof.
  unfold instruction_events.
  repeat (apply Forall_cons; split; [apply P_print|]).
  apply Forall_app; split.
  - apply Forall_forall. intros ev Hin.
    apply list_elem_of_In, in_map_iff in Hin as (s & <- & _).
    apply P_print.
  - by apply Forall_cons.
Qed.

(** A property of the events that holds for each kind of call the
    script makes holds for every event of a run. *)
Lemma main_outcome_forall (d : FS) : Forall P (main_outcome L g d).2.
Proof.
  assert (Forall P (head_events g)) as Hhead.
  { by repeat (apply Forall_cons; split; [done|]). }
  unfold main_outcome.
  destruct (lib_load L (PROJECT_PATH g) d) as [pr|e]; [|done].
  destruct (lib_get_targets L pr) as [ts|e]; cbn [snd].
  2:{ apply Forall_app; split; [done|]. by apply Forall_cons. }
  destruct (guard_fires g ts); cbn [snd].
  { apply Forall_app; split; [done|].
    by repeat (apply Forall_cons; split; [done|]). }
  assert (Forall P
            (head_events g
             ++ [EvGetTargets; EvPrint "Adding widget source files..."]
             ++ expected_loop_trace L g (SHARED_SOURCES g) d pr)) as Hloop.
  { apply Forall_app; split; [done|].
    repeat (apply Forall_cons; split; [done|]).
    eapply Forall_impl; [apply expected_loop_trace_events|]. apply P_loop. }
  destruct (added_handle L g (SHARED_SOURCES g) d pr) as [pr1|e]; [|done].
  assert (Forall P [EvPrint "Saving project..."; EvSave]) as Hsave.
  { by repeat (apply Forall_cons; split; [done|]). }
  destruct (lib_save L pr1 d) as [[[]|e] d']; cbn [snd].
  - apply Forall_app; split; [by apply Forall_app|].
    apply instruction_events_forall.
  - by apply Forall_app.
Qed.

End TraceInvariant.

Lemma shared_path_widget_free (file : string) :
  ~ names_widget_source file
      (full_path (module_globals file) "Shared/WidgetModels.swift").
Proof.
  intros (s & Hin & Hcase).
  destruct (not_widget_by_tail file "els.swift" _ s (shared_path_tail file))
    as [Hn1 Hn2]; [done|done|done|done|].
  by destruct Hcase.
Qed.

Lemma descriptor_path_widget_free (file : string) :
  ~ names_widget_source file (PROJECT_PATH (module_globals file)).
Proof.
  intros (s & Hin & Hcase).
  destruct (not_widget_by_tail file "t.pbxproj" _ s (descriptor_path_tail file))
    as [Hn1 Hn2]; [done|done|done|done|].
  by destruct Hcase.
Qed.

(** C8.  In every run, whatever the library and the disk, each add-file
    call names the target [Dequeue] (never [DequeueWidgets]) and a path
    that is no widget source; nor does any existence check or load name
    one.  The four widget sources show up in the printed instructions
    only. *)
Theorem widget_sources_only_printed
    (L : PbxLibrary) (file : string) (w : World) :
  (exists evs,
     trace (snd (run_script L file w)) = trace w ++ evs /\
     Forall (widget_free file) evs)
  /\
  print_instructions (module_globals file) w =
    (Ok tt,
     emit
       [ EvPrint "Done! Shared files added to main Dequeue target.";
         EvPrint EmptyString;
         EvPrint "NOTE: The widget extension target (DequeueWidgets) needs to be added";
         EvPrint "through Xcode: File > New > Target > Widget Extension.";
         EvPrint "Then add the widget source files to that target.";
         EvPrint EmptyString;
         EvPrint "Widget files to add:";
         EvPrint "  - Dequeue/DequeueWidgets/DequeueWidgetBundle.swift";
         EvPrint "  - Dequeue/DequeueWidgets/ActiveStackWidget.swift";
         EvPrint "  - Dequeue/DequeueWidgets/UpNextWidget.swift";
         EvPrint "  - Dequeue/DequeueWidgets/QuickStatsWidget.swift";
         EvPrint "  - Dequeue/Shared/WidgetModels.swift (add to BOTH targets)" ]
       w).
Proof.
  split; [|apply print_instructions_run].
  unfold run_script. rewrite main_run.
  assert (Forall (widget_free file)
            (main_outcome L (module_globals file) (disk w)).2) as Hall.
  { apply main_outcome_forall; try done.
    - apply descriptor_path_widget_free.
    - intros [line|p| |p found|p parent t ret|]; cbn; try done.
      + intros (s & [<-|[]] & ->). apply shared_path_widget_free.
      + intros (_ & -> & s & [<-|[]] & ->).
        split; [done|]. split; [done|]. apply shared_path_widget_free. }
  destruct (main_outcome L (module_globals file) (disk w)) as [[r d'] evs].
  by exists evs.
Qed.

(** ** What a run depends on *)





(** C10.  [WIDGET_BUNDLE_ID] is never read: with any other value bound to
    it, [main] gives the same result, the same output and the same disk
    from every world. *)
Theorem bundle_id_never_read
    (L : PbxLibrary) (g : Globals) (file bundle_id : string) (w : World) :
  WIDGET_BUNDLE_ID (module_globals file) = "com.ardonos.Dequeue.widgets" /\
  main L (with_bundle_id bundle_id g) w = main L g w /\
  main L (with_bundle_id bundle_id (module_globals file)) w
    = run_script L file w.
Proof.
  split; [reflexivity|]. split.
  - rewrite !main_run. reflexivity.
  - unfold run_script. rewrite !main_run. reflexivity.
Qed.

(** ** Saving *)

(** C9, as the code has it.  When the guard does not fire and the loop
    over the shared sources comes to its end (no add-file call raises),
    [save] is called on the handle the loop produced: once, after every
    event of the loop and before the instructions, whether or not any
    file was added; the disk is then whatever that call made of it. *)
Theorem save_once_after_completed_loop
    (L : PbxLibrary) (g : Globals) (w : World)
    (pr pr1 : Project L) (ts : list Target) :
  lib_load L (PROJECT_PATH g) (disk w) = Ok pr ->
  lib_get_targets L pr = Ok ts ->
  guard_fires g ts = false ->
  added_handle L g (SHARED_SOURCES g) (disk w) pr = Ok pr1 ->
  exists (after : list Event),
    let before :=
      [ EvPrint ("Loading project: " +:+ PROJECT_PATH g);
        EvLoad (PROJECT_PATH g);
        EvGetTargets;
        EvPrint "Adding widget source files..." ]
      ++ expected_loop_trace L g (SHARED_SOURCES g) (disk w) pr
      ++ [ EvPrint "Saving project..." ] in
    main L g w =
      (fst (lib_save L pr1 (disk w)),
       with_disk (snd (lib_save L pr1 (disk w)))
         (emit (before ++ EvSave :: after) w)) /\
    ~ In EvSave before /\
    ~ In EvSave after /\
    (after = instruction_events g \/ after = []).
Proof.
  intros Hload Hts Hguard Hloop.
  rewrite main_run. unfold main_outcome.
  rewrite Hload, Hts, Hguard, Hloop.
  assert (~ In EvSave (instruction_events g)) as Hinstr.
  { intros Hin.
    pose proof (instruction_events_forall g (fun ev => ev <> EvSave)) as Hall.
    rewrite Forall_forall in Hall.
    apply list_elem_of_In in Hin. by apply Hall in Hin. }
  destruct (lib_save L pr1 (disk w)) as [[[]|e] d'];
    [exists (instruction_events g) | exists []];
    cbv zeta; cbn [fst snd]; (split; [|split; [|split]]).
  - do 2 f_equal. unfold head_events. rewrite <- !app_assoc. reflexivity.
  - rewrite !in_app_iff. intros [Hin|[Hin|Hin]].
    + cbn in Hin. intuition discriminate.
    + by apply expected_loop_trace_no_save in Hin.
    + cbn in Hin. intuition discriminate.
  - exact Hinstr.
  - by left.
  - do 2 f_equal. unfold head_events. rewrite <- !app_assoc. reflexivity.
  - rewrite !in_app_iff. intros [Hin|[Hin|Hin]].
    + cbn in Hin. intuition discriminate.
    + by apply expected_loop_trace_no_save in Hin.
    + cbn in Hin. intuition discriminate.
  - by intros [].
  - by right.
Qed.

Lemma save_once_after_completed_loop_witness :
  exists after,
    run_script (Mock.lib false) Mock.script (Mock.boot Mock.disk_missing)
      = (Ok tt,
         with_disk Mock.disk_missing
           (emit
              ([ EvPrint "Loading project: /repo/Dequeue/Dequeue.xcodeproj/project.pbxproj";
                 EvLoad Mock.pbxproj;
                 EvGetTargets;
                 EvPrint "Adding widget source files...";
                 EvExists Mock.shared false;
                 EvPrint "Saving project..." ]
               ++ EvSave :: after)
              (Mock.boot Mock.disk_missing))) /\
    ~ In EvSave after.
Proof.
  destruct (save_once_after_completed_loop (Mock.lib false)
              (module_globals Mock.script) (Mock.boot Mock.disk_missing)
              (Mock.mkHandle Mock.pbxproj "target Dequeue;target DequeueTests;")
              (Mock.mkHandle Mock.pbxproj "target Dequeue;target DequeueTests;")
              [mkTarget "Dequeue"; mkTarget "DequeueTests"]
              eq_refl eq_refl eq_refl eq_refl)
    as (after & Hrun & _ & Hafter & _).
  exists after. split; [|exact Hafter].
  unfold run_script. rewrite Hrun. reflexivity.
Defined.

(** C9, as worded, fails: here the guard does not fire (the project
    loads, its targets are [Dequeue] and [DequeueTests]), the add-file
    call raises, and the run ends without any save. *)
Lemma save_skipped_counterexample :
  let g := module_globals Mock.script in
  let h := Mock.mkHandle Mock.pbxproj "target Dequeue;target DequeueTests;" in
  let ts := [mkTarget "Dequeue"; mkTarget "DequeueTests"] in
  let w := Mock.boot Mock.disk0 in
  lib_load Mock.failing_add (PROJECT_PATH g) (disk w) = Ok h /\
  lib_get_targets Mock.failing_add h = Ok ts /\
  guard_fires g ts = false /\
  fst (run_script Mock.failing_add Mock.script w) = Raise "KeyError: target" /\
  ~ In EvSave (trace (snd (run_script Mock.failing_add Mock.script w))) /\
  disk (snd (run_script Mock.failing_add Mock.script w)) = Mock.disk0.
Proof.
  cbv zeta. repeat (split; [reflexivity|]). split; [|reflexivity].
  vm_compute. intuition discriminate.
Qed.

(** ** Running the script twice *)

Section TwoRuns.
Context (L : PbxLibrary) (g : Globals) (bound : Project L -> Prop).
Hypothesis laws : deduplicating L (PROJECT_PATH g) bound.

(** The loop of the first run leaves every source it found on disk
    settled. *)
Lemma first_loop_settles (sources : list string) (d : FS)
    (pr pr1 : Project L) :
  added_handle L g sources d pr = Ok pr1 ->
  (bound pr -> bound pr1) /\
  (forall p, settled L pr p -> settled L pr1 p) /\
  (forall s, In s sources -> path_exists d (full_path g s) = true ->
             settled L pr1 (full_path g s)).
Proof.
  revert pr. induction sources as [|s rest IH]; intros pr; cbn [added_handle].
  - intros [= ->]. repeat split; try done.
  - destruct (path_exists d (full_path g s)) eqn:Hex.
    + destruct (lib_add_file L (full_path g s) None "Dequeue" d pr)
        as [[pr' v]|e] eqn:Hadd; [|done].
      intros Hrest. destruct (IH pr' Hrest) as (Hb & Hkeep & Hnew).
      split; [|split].
      * intros Hpr. apply Hb. by eapply (add_bound _ _ _ laws).
      * intros p Hp. apply Hkeep. by eapply (add_keeps_settled _ _ _ laws).
      * intros s' [<-|Hin] Hs'.
        -- apply Hkeep. by eapply (add_settles _ _ _ laws).
        -- by apply Hnew.
    + intros Hrest. destruct (IH pr Hrest) as (Hb & Hkeep & Hnew).
      split; [done|]. split; [done|].
      intros s' [<-|Hin] Hs'; [congruence|by apply Hnew].
Qed.

(** On a handle where every listed source found on disk is settled, the
    loop leaves the handle as it is, and each of its add-file calls
    reports an existing file. *)
Lemma second_loop_adds_nothing (sources : list string) (d : FS)
    (pr : Project L) :
  (forall s, In s sources -> path_exists d (full_path g s) = true ->
             settled L pr (full_path g s)) ->
  added_handle L g sources d pr = Ok pr /\
  Forall reports_existing (expected_loop_trace L g sources d pr).
Proof.
  induction sources as [|s rest IH]; intros Hsettled;
    cbn [added_handle expected_loop_trace]; [done|].
  destruct IH as [IH1 IH2].
  { intros s' Hin. apply Hsettled. by right. }
  destruct (path_exists d (full_path g s)) eqn:Hex.
  - destruct (Hsettled s (or_introl eq_refl) Hex d) as (v & -> & Hv).
    split; [done|].
    repeat (apply Forall_cons; split; [by (cbn; eauto)|]). done.
  - split; [done|]. by apply Forall_cons.
Qed.

Hypothesis sources_apart :
  forall s, In s (SHARED_SOURCES g) -> full_path g s <> PROJECT_PATH g.

(** A second run on the disk a completed first run left ends well,
    every add-file call it makes reports an existing file, and the disk
    is what the first run left. *)
Lemma second_run_outcome (d0 d1 : FS) (evs1 : list Event) :
  main_outcome L g d0 = (Ok tt, d1, evs1) ->
  exists evs2,
    main_outcome L g d1 = (Ok tt, d1, evs2) /\
    Forall reports_existing evs2.
Proof.
  unfold main_outcome at 1.
  destruct (lib_load L (PROJECT_PATH g) d0) as [pr0|e] eqn:Hload; [|done].
  destruct (lib_get_targets L pr0) as [ts|e] eqn:Hts; [|done].
  destruct (guard_fires g ts) eqn:Hguard.
  { intros [= <- _]. unfold main_outcome. rewrite Hload, Hts, Hguard.
    eexists. split; [reflexivity|].
    by repeat (apply Forall_cons; split; [done|]). }
  destruct (added_handle L g (SHARED_SOURCES g) d0 pr0) as [pr1|e] eqn:Hloop;
    [|done].
  destruct (lib_save L pr1 d0) as [[[]|e] d'] eqn:Hsave; [|done].
  intros [= -> _].
  destruct (first_loop_settles _ _ _ _ Hloop) as (Hb & _ & Hnew).
  assert (bound pr1) as Hb1 by (apply Hb; by eapply (load_bound _ _ _ laws)).
  unfold main_outcome.
  rewrite (save_load _ _ _ laws _ _ _ Hb1 Hsave).
  destruct (targets_return _ _ _ laws _ Hb1) as [ts' ->].
  destruct (guard_fires g ts').
  { eexists. split; [reflexivity|].
    by repeat (apply Forall_cons; split; [done|]). }
  destruct (second_loop_adds_nothing (SHARED_SOURCES g) d1 pr1) as [-> Hall].
  { intros s Hin Hex. apply Hnew; [done|].
    unfold path_exists in *.
    by rewrite <- (save_frame _ _ _ laws _ _ _ _ _ Hb1 Hsave
                     (sources_apart s Hin)). }
  rewrite (save_again _ _ _ laws _ _ _ Hb1 Hsave).
  eexists. split; [reflexivity|].
  repeat first
    [ assumption
    | apply instruction_events_forall; done
    | apply Forall_nil_2
    | apply Forall_cons; split; [done|]
    | apply Forall_app; split ].
Qed.

End TwoRuns.

(** The model library with the look-up satisfies the laws. *)
Module MockLaws.

Lemma prefix_refl (e : string) : String.prefix e e = true.
Proof.
  induction e as [|a e IH]; cbn; [done|].
  by destruct (ascii_dec a a).
Qed.

Lemma prefix_app_l (e a b : string) :
  String.prefix e a = true -> String.prefix e (a +:+ b) = true.
Proof.
  revert a. induction e as [|c e IH]; intros a.
  - intros _. by destruct (a +:+ b).
  - destruct a as [|c' a]; [done|].
    rewrite str_app_cons. cbn.
    destruct (ascii_dec c c'); [apply IH|done].
Qed.

Lemma contains_unfold (e s : string) :
  Mock.contains e s =
    String.prefix e s ||
    match s with
    | EmptyString => false
    | String _ r => Mock.contains e r
    end.
Proof. by destruct s. Qed.

Lemma contains_app_l (e a b : string) :
  Mock.contains e a = true -> Mock.contains e (a +:+ b) = true.
Proof.
  induction a as [|c a IH].
  - rewrite (contains_unfold e EmptyString), orb_false_r. intros Hp.
    rewrite contains_unfold.
    by rewrite (prefix_app_l e EmptyString b Hp).
  - rewrite (contains_unfold e (String c a)), str_app_cons.
    rewrite (contains_unfold e (String c (a +:+ b))).
    intros [Hp|Hr]%orb_true_iff.
    + apply (prefix_app_l e (String c a) b) in Hp.
      rewrite str_app_cons in Hp. by rewrite Hp.
    + rewrite (IH Hr). apply orb_true_r.
Qed.

Lemma contains_app_r (e a : string) : Mock.contains e (a +:+ e) = true.
Proof.
  induction a as [|c a IH]; rewrite contains_unfold.
  - change (EmptyString +:+ e) with e. by rewrite prefix_refl.
  - rewrite str_app_cons, IH. apply orb_true_r.
Qed.

Lemma settled_iff (h : Mock.handle) (p : string) :
  settled (Mock.lib false) h p <->
  Mock.contains (Mock.entry "Dequeue" p) (Mock.text h) = true.
Proof.
  unfold settled; cbn. unfold Mock.add; cbn. split.
  - intros Hs. destruct (Hs ∅) as (v & Hadd & Hv).
    destruct (Mock.contains (Mock.entry "Dequeue" p) (Mock.text h)); [done|].
    by injection Hadd as _ <-.
  - intros -> d. by exists (PyList []).
Qed.

Lemma lib_deduplicating (P : string) :
  deduplicating (Mock.lib false) P (fun h => Mock.pbx_path h = P).
Proof.
  split.
  - intros d pr. cbn. unfold Mock.load.
    destruct (d !! P); [|done]. by intros [= <-].
  - intros pr _. by eexists.
  - intros p d pr pr' v Hb. cbn. unfold Mock.add. cbn.
    destruct (Mock.contains _ _); by intros [= <- _].
  - intros p d pr pr' v Hadd. apply settled_iff.
    cbn in Hadd. unfold Mock.add in Hadd. cbn in Hadd.
    destruct (Mock.contains _ _) eqn:Hc; injection Hadd as <- _; [done|].
    apply contains_app_r.
  - intros p q d pr pr' v Hs%settled_iff Hadd. apply settled_iff.
    cbn in Hadd. unfold Mock.add in Hadd. cbn in Hadd.
    destruct (Mock.contains (Mock.entry "Dequeue" q) _);
      injection Hadd as <- _; [done|].
    by apply contains_app_l.
  - intros pr d d' r p Hb. cbn. unfold Mock.write. intros [= _ <-] Hp.
    rewrite Hb. by apply lookup_insert_ne.
  - intros [path text] d d' Hb. cbn in *. unfold Mock.write, Mock.load.
    cbn. intros [= <-]. subst path. by rewrite lookup_insert_eq.
  - intros pr d d' Hb. cbn. unfold Mock.write. intros [= <-].
    by rewrite insert_insert_eq.
Qed.

End MockLaws.

(** What the already-exists branch of line 66 counts on.  With a library
    that does not add a file twice, whose handles list their targets and
    whose [save] is read back by [load], a second run on the disk a
    completed first run left returns normally, every add-file call it
    makes reports an existing file (none returns a truthy value), and the
    disk stays what the first run left. *)
Theorem second_run_changes_nothing
    (L : PbxLibrary) (file : string) (bound : Project L -> Prop)
    (w1 w1' w2 : World) :
  deduplicating L (PROJECT_PATH (module_globals file)) bound ->
  run_script L file w1 = (Ok tt, w1') ->
  disk w2 = disk w1' ->
  exists evs,
    run_script L file w2 = (Ok tt, emit evs w2) /\
    disk (emit evs w2) = disk w1' /\
    Forall reports_existing evs.
Proof.
  intros laws Hrun1 Hdisk. unfold run_script in *.
  rewrite main_run in Hrun1. rewrite main_run.
  destruct (main_outcome L (module_globals file) (disk w1))
    as [[r1 d1] evs1] eqn:Hout1.
  injection Hrun1 as -> <-. cbn [disk with_disk emit] in Hdisk.
  destruct (second_run_outcome L (module_globals file) bound laws) with
    (d0 := disk w1) (d1 := d1) (evs1 := evs1) as (evs2 & Hout2 & Hall).
  { intros s [<-|[]]. apply shared_path_not_descriptor. }
  { exact Hout1. }
  exists evs2. rewrite Hdisk, Hout2. split; [|split; [|done]].
  - f_equal. destruct w2; cbn in *. by subst.
  - by cbn.
Qed.

Lemma second_run_changes_nothing_witness :
  let d1 : FS :=
    <[ Mock.pbxproj :=
         "target Dequeue;target DequeueTests;file Dequeue /repo/Dequeue/Shared/WidgetModels.swift;" ]>
      Mock.disk0 in
  exists evs,
    run_script (Mock.lib false) Mock.script (Mock.boot d1)
      = (Ok tt, emit evs (Mock.boot d1)) /\
    disk (emit evs (Mock.boot d1)) = d1 /\
    Forall reports_existing evs.
Proof.
  intros d1.
  exact (second_run_changes_nothing (Mock.lib false) Mock.script
           (fun h => Mock.pbx_path h = Mock.pbxproj)
           (Mock.boot Mock.disk0)
           (snd (run_script (Mock.lib false) Mock.script (Mock.boot Mock.disk0)))
           (Mock.boot d1)
           (MockLaws.lib_deduplicating Mock.pbxproj) eq_refl eq_refl).
Defined.

(** C1, at the failing input.  The script calls [add_file] with a path,
    [parent] and [target_name] and nothing more, so a library that adds
    without looking for an existing entry unless told to is never told.
    With such a library, on the disk the first run left, the guard does
    not fire, the add-file call returns a truthy value, the success line
    is printed again where line 66 would have been due, and the
    descriptor gets a second entry for the same file. *)
Theorem second_run_adds_the_file_again :
  let run := run_script (Mock.lib true) Mock.script in
  let w1 := snd (run (Mock.boot Mock.disk0)) in
  let w2 := snd (run (Mock.boot (disk w1))) in
  fst (run (Mock.boot Mock.disk0)) = Ok tt /\
  fst (run (Mock.boot (disk w1))) = Ok tt /\
  trace w2 =
    [ EvPrint "Loading project: /repo/Dequeue/Dequeue.xcodeproj/project.pbxproj";
      EvLoad Mock.pbxproj;
      EvGetTargets;
      EvPrint "Adding widget source files...";
      EvExists Mock.shared true;
      EvAddFile Mock.shared None "Dequeue" (Some (PyList [Mock.shared]));
      EvPrint "  Added Shared/WidgetModels.swift to Dequeue target";
      EvPrint "Saving project...";
      EvSave ] ++ instruction_events (module_globals Mock.script) /\
  truthy (PyList [Mock.shared]) = true /\
  disk w1 !! Mock.pbxproj =
    Some "target Dequeue;target DequeueTests;file Dequeue /repo/Dequeue/Shared/WidgetModels.swift;" /\
  disk w2 !! Mock.pbxproj =
    Some "target Dequeue;target DequeueTests;file Dequeue /repo/Dequeue/Shared/WidgetModels.swift;file Dequeue /repo/Dequeue/Shared/WidgetModels.swift;" /\
  disk w2 <> disk w1.
Proof.
  cbv zeta. repeat (split; [reflexivity|]).
  intros Heq. apply (f_equal (fun d : FS => d !! Mock.pbxproj)) in Heq.
  vm_compute in Heq. discriminate Heq.
Qed.

(** ** What is on disk after a run *)







(** * Further properties of the script *)

(** ** Where the script looks: [dirname] and [join] on its own path *)

Section PathFacts.

Lemma list_of_str_app (a b : string) :
  String.list_ascii_of_string (a +:+ b)
  = String.list_ascii_of_string a ++ String.list_ascii_of_string b.
Proof.
  induction a as [|c a IH]; [reflexivity|].
  rewrite str_app_cons. cbn. by rewrite IH.
Qed.

Lemma str_of_list_app (l1 l2 : list ascii) :
  String.string_of_list_ascii (l1 ++ l2)
  = String.string_of_list_ascii l1 +:+ String.string_of_list_ascii l2.
Proof.
  induction l1 as [|c l1 IH]; [reflexivity|].
  cbn. by rewrite IH, str_app_cons.
Qed.

Lemma drop_while_all (f : ascii -> bool) (l1 l2 : list ascii) :
  forallb f l1 = true ->
  OsPath.drop_while f (l1 ++ l2) = OsPath.drop_while f l2.
Proof.
  induction l1 as [|c l1 IH]; cbn; [done|].
  intros [-> Hall]%andb_true_iff. by apply IH.
Qed.

(** What [drop_while] leaves is the end of the list. *)
Lemma drop_while_suffix (f : ascii -> bool) (l : list ascii) :
  exists pre, l = pre ++ OsPath.drop_while f l.
Proof.
  induction l as [|c l [pre IH]]; cbn.
  - by exists [].
  - destruct (f c).
    + exists (c :: pre). cbn. by rewrite <- IH.
    + by exists [].
Qed.

Lemma forallb_rev (f : ascii -> bool) (l : list ascii) :
  forallb f (rev l) = forallb f l.
Proof.
  induction l as [|c l IH]; cbn; [done|].
  rewrite forallb_app, IH. cbn. rewrite andb_true_r. apply andb_comm.
Qed.

Lemma endswith_sep_app (a b : string) :
  b <> EmptyString ->
  OsPath.endswith_sep (a +:+ b) = OsPath.endswith_sep b.
Proof.
  intros Hb. induction a as [|c a IH]; [reflexivity|].
  rewrite str_app_cons. cbn. rewrite IH.
  destruct (a +:+ b) eqn:Hab; [|done].
  destruct a; [|done]. by destruct b.
Qed.

Lemma is_empty_app (a b : string) :
  b <> EmptyString -> OsPath.is_empty (a +:+ b) = false.
Proof. intros Hb. destruct a; [by destruct b|done]. Qed.

(** A non-empty string that does not end with a separator ends with
    another character. *)
Lemma endswith_sep_last (x : string) :
  x <> EmptyString -> OsPath.endswith_sep x = false ->
  exists y c, String.list_ascii_of_string x = y ++ [c]
              /\ OsPath.is_sep c = false.
Proof.
  induction x as [|c x IH]; [done|]. intros _ Hend.
  destruct x as [|c' x].
  - exists [], c. by cbn in *.
  - destruct IH as (y & c0 & Hy & Hc0); [done|done|].
    exists (c :: y), c0. cbn in *. by rewrite Hy.
Qed.

Lemma sep_free_endswith (s : string) :
  sep_free s = true -> OsPath.endswith_sep s = false.
Proof.
  unfold sep_free. induction s as [|c s IH]; [done|]. cbn.
  intros [Hc Hs]%andb_true_iff. destruct s; [by destruct (OsPath.is_sep c)|].
  by apply IH.
Qed.

(** [dirname] of a path whose last component holds no separator is what
    stands before the last separator. *)
Lemma dirname_parent (x n : string) :
  x <> EmptyString -> OsPath.endswith_sep x = false -> sep_free n = true ->
  OsPath.dirname (x +:+ String OsPath.sep n) = x.
Proof.
  intros Hx Hend Hn.
  destruct (endswith_sep_last x Hx Hend) as (y & c & Hy & Hc).
  unfold OsPath.dirname. rewrite list_of_str_app. cbn [String.list_ascii_of_string].
  set (lx := String.list_ascii_of_string x) in *.
  set (ln := String.list_ascii_of_string n).
  assert (rev (lx ++ OsPath.sep :: ln) = rev ln ++ OsPath.sep :: rev lx) as ->.
  { rewrite rev_app_distr. cbn. by rewrite <- app_assoc. }
  rewrite drop_while_all by (by rewrite forallb_rev).
  cbn [OsPath.drop_while].
  change (negb (OsPath.is_sep OsPath.sep)) with false. cbv iota.
  assert (rev (OsPath.sep :: rev lx) = lx ++ [OsPath.sep]) as ->.
  { cbn. by rewrite rev_involutive. }
  assert (forallb OsPath.is_sep (lx ++ [OsPath.sep]) = false) as ->.
  { rewrite Hy, !forallb_app. cbn. rewrite Hc.
    by rewrite andb_false_r. }
  rewrite rev_app_distr. cbn [rev app OsPath.drop_while].
  change (OsPath.is_sep OsPath.sep) with true. cbv iota.
  rewrite Hy, rev_app_distr. cbn [rev app OsPath.drop_while]. rewrite Hc.
  change (rev (c :: rev y)) with (rev (rev y) ++ [c]).
  rewrite rev_involutive, <- Hy. apply String.string_of_list_ascii_of_string.
Qed.

(** [dirname] of a name right under the top directory is the top
    directory. *)
Lemma dirname_top (n : string) :
  sep_free n = true -> OsPath.dirname (String OsPath.sep n) = "/".
Proof.
  intros Hn. unfold OsPath.dirname. cbn [String.list_ascii_of_string].
  set (ln := String.list_ascii_of_string n).
  change (rev (OsPath.sep :: ln)) with (rev ln ++ [OsPath.sep]).
  rewrite drop_while_all by (by rewrite forallb_rev).
  reflexivity.
Qed.

(** [dirname p] is a beginning of [p]. *)
Lemma dirname_prefix (p : string) :
  exists rest, p = OsPath.dirname p +:+ rest.
Proof.
  unfold OsPath.dirname.
  set (l := String.list_ascii_of_string p).
  destruct (drop_while_suffix (fun c => negb (OsPath.is_sep c)) (rev l))
    as [pre Hpre].
  set (head := rev (OsPath.drop_while (fun c => negb (OsPath.is_sep c)) (rev l))).
  assert (l = head ++ rev pre) as Hl.
  { unfold head. rewrite <- rev_app_distr, <- Hpre. by rewrite rev_involutive. }
  destruct (forallb OsPath.is_sep head).
  - exists (String.string_of_list_ascii (rev pre)).
    rewrite <- str_of_list_app, <- Hl.
    symmetry. apply String.string_of_list_ascii_of_string.
  - destruct (drop_while_suffix OsPath.is_sep (rev head)) as [pre' Hpre'].
    exists (String.string_of_list_ascii (rev pre' ++ rev pre)).
    rewrite <- str_of_list_app, app_assoc, <- rev_app_distr, <- Hpre'.
    rewrite rev_involutive, <- Hl.
    symmetry. apply String.string_of_list_ascii_of_string.
Qed.

(** Whatever the project root, the directory of the sources is not empty
    and does not end with a separator. *)
Lemma source_base_clean (file : string) :
  OsPath.is_empty (source_base file) = false /\
  OsPath.endswith_sep (source_base file) = false.
Proof.
  unfold source_base, OsPath.join. cbn [fold_left].
  unfold OsPath.join_step. cbn [OsPath.startswith_sep].
  change (OsPath.is_sep "D"%char) with false. cbv iota.
  destruct (OsPath.is_empty (project_root file)
            || OsPath.endswith_sep (project_root file)).
  - split; [by apply is_empty_app|by rewrite endswith_sep_app].
  - split; [by apply is_empty_app|by rewrite endswith_sep_app].
Qed.

End PathFacts.

(** For any script location and any listed source: an absolute source is
    taken as it is, a relative one is put under [source_base]. *)
Lemma full_path_cases (g : Globals) (s : string) :
  full_path g s =
    if OsPath.startswith_sep s then s
    else source_base (abs_file g) +:+ "/" +:+ s.
Proof.
  change (full_path g s)
    with (OsPath.join_step (source_base (abs_file g)) s).
  unfold OsPath.join_step.
  destruct (OsPath.startswith_sep s); [done|].
  destruct (source_base_clean (abs_file g)) as [-> ->]. reflexivity.
Qed.

Lemma descriptor_paths_from_base (file : string) :
  PROJECT_PATH (module_globals file)
    = source_base file +:+ "/Dequeue.xcodeproj/project.pbxproj" /\
  (forall s, full_path (module_globals file) s =
               if OsPath.startswith_sep s then s
               else source_base file +:+ "/" +:+ s).
Proof.
  split; [|intros s; apply (full_path_cases (module_globals file) s)].
  change (PROJECT_PATH (module_globals file))
    with (OsPath.join_step
            (OsPath.join_step (source_base file) "Dequeue.xcodeproj")
            "project.pbxproj").
  destruct (source_base_clean file) as [Hne Hend].
  unfold OsPath.join_step at 2. cbn [OsPath.startswith_sep].
  change (OsPath.is_sep "D"%char) with false. cbv iota.
  rewrite Hne, Hend. cbv iota. cbn [orb].
  unfold OsPath.join_step. cbn [OsPath.startswith_sep].
  change (OsPath.is_sep "p"%char) with false. cbv iota.
  rewrite is_empty_app, endswith_sep_app by done.
  cbn [orb]. change (OsPath.endswith_sep (String OsPath.sep "Dequeue.xcodeproj"))
    with false. cbv iota.
  by rewrite str_app_assoc.
Qed.

(** X3.  The descriptor and the listed sources are resolved against one
    directory, [Dequeue] under the project root, wherever the script
    lies: the descriptor is [Dequeue.xcodeproj/project.pbxproj] in it and
    each listed source, shared or widget, is that directory, a separator
    and the source as listed.  A source written as an absolute path would
    be taken as it is, the project root being dropped. *)
Theorem descriptor_and_sources_share_a_directory (file : string) :
  let g := module_globals file in
  PROJECT_PATH g = source_base file +:+ "/Dequeue.xcodeproj/project.pbxproj" /\
  Forall (fun s => full_path g s = source_base file +:+ "/" +:+ s)
    (SHARED_SOURCES g ++ WIDGET_SOURCES g) /\
  (forall s, full_path g s =
               if OsPath.startswith_sep s then s
               else source_base file +:+ "/" +:+ s).
Proof.
  intros g. destruct (descriptor_paths_from_base file) as [Hp Hs].
  split; [done|]. split; [|done].
  apply Forall_forall. intros s Hin. rewrite Hs.
  apply list_elem_of_In in Hin. cbn in Hin.
  by destruct Hin as [<-|[<-|[<-|[<-|[<-|[]]]]]].
Qed.

(** X1.  For a script at [root/dir/name] ([root] not empty and not ending
    with a separator, [dir] and [name] without separators) the project
    root is [root]: the descriptor is
    [root/Dequeue/Dequeue.xcodeproj/project.pbxproj] and a relative
    source [s] is [root/Dequeue/s]. *)
Theorem project_root_two_levels_up (root dir name : string) :
  root <> EmptyString -> OsPath.endswith_sep root = false ->
  dir <> EmptyString -> sep_free dir = true -> sep_free name = true ->
  let file := root +:+ "/" +:+ dir +:+ "/" +:+ name in
  project_root file = root /\
  PROJECT_PATH (module_globals file)
    = root +:+ "/Dequeue/Dequeue.xcodeproj/project.pbxproj" /\
  (forall s, OsPath.startswith_sep s = false ->
             full_path (module_globals file) s = root +:+ "/Dequeue/" +:+ s).
Proof.
  intros Hroot Hend Hdir Hdirfree Hname file.
  assert (project_root file = root) as Hpr.
  { unfold project_root, file.
    change (root +:+ "/" +:+ dir +:+ "/" +:+ name)
      with (root +:+ String OsPath.sep (dir +:+ String OsPath.sep name)).
    change (String OsPath.sep (dir +:+ String OsPath.sep name))
      with (String OsPath.sep dir +:+ String OsPath.sep name).
    rewrite <- str_app_assoc.
    rewrite dirname_parent; [by apply dirname_parent| |  |done].
    - by destruct root.
    - rewrite endswith_sep_app by done.
      destruct dir as [|c dir]; [done|].
      by apply (sep_free_endswith (String c dir)). }
  assert (source_base file = root +:+ "/Dequeue") as Hbase.
  { unfold source_base, OsPath.join. cbn [fold_left]. rewrite Hpr.
    unfold OsPath.join_step. cbn [OsPath.startswith_sep].
    change (OsPath.is_sep "D"%char) with false. cbv iota.
    rewrite Hend. by destruct root. }
  split; [done|].
  destruct (descriptor_paths_from_base file) as [Hp Hs].
  split.
  - rewrite Hp, Hbase. by rewrite str_app_assoc.
  - intros s Hrel. rewrite Hs, Hrel, Hbase. by rewrite str_app_assoc.
Qed.

Lemma project_root_two_levels_up_witness :
  project_root "/repo/scripts/add_widget_target.py" = "/repo" /\
  PROJECT_PATH (module_globals "/repo/scripts/add_widget_target.py")
    = "/repo/Dequeue/Dequeue.xcodeproj/project.pbxproj" /\
  full_path (module_globals "/repo/scripts/add_widget_target.py")
    "Shared/WidgetModels.swift"
    = "/repo/Dequeue/Shared/WidgetModels.swift".
Proof.
  destruct (project_root_two_levels_up "/repo" "scripts" "add_widget_target.py")
    as (Hroot & Hpath & Hfull);
    [discriminate|reflexivity|discriminate|reflexivity|reflexivity|].
  split; [exact Hroot|]. split; [exact Hpath|].
  exact (Hfull "Shared/WidgetModels.swift" eq_refl).
Defined.

(** X2.  For a script in a directory right under the top directory,
    [/dir/name], the project root is the top directory itself and no
    separator is doubled: the descriptor is
    [/Dequeue/Dequeue.xcodeproj/project.pbxproj] and a relative source
    [s] is [/Dequeue/s]. *)
Theorem project_root_at_top (dir name : string) :
  dir <> EmptyString -> sep_free dir = true -> sep_free name = true ->
  let file := "/" +:+ dir +:+ "/" +:+ name in
  project_root file = "/" /\
  PROJECT_PATH (module_globals file)
    = "/Dequeue/Dequeue.xcodeproj/project.pbxproj" /\
  (forall s, OsPath.startswith_sep s = false ->
             full_path (module_globals file) s = "/Dequeue/" +:+ s).
Proof.
  intros Hdir Hdirfree Hname file.
  assert (project_root file = "/") as Hpr.
  { unfold project_root, file.
    change ("/" +:+ dir +:+ "/" +:+ name)
      with (String OsPath.sep dir +:+ String OsPath.sep name).
    rewrite dirname_parent; [by apply dirname_top|done| |done].
    change (String OsPath.sep dir) with ("/" +:+ dir).
    rewrite endswith_sep_app by done.
    by apply sep_free_endswith. }
  assert (source_base file = "/Dequeue") as Hbase.
  { unfold source_base. by rewrite Hpr. }
  destruct (descriptor_paths_from_base file) as [Hp Hs].
  split; [done|]. split.
  - by rewrite Hp, Hbase.
  - intros s Hrel. by rewrite Hs, Hrel, Hbase.
Qed.

Lemma project_root_at_top_witness :
  project_root "/scripts/add_widget_target.py" = "/" /\
  PROJECT_PATH (module_globals "/scripts/add_widget_target.py")
    = "/Dequeue/Dequeue.xcodeproj/project.pbxproj" /\
  full_path (module_globals "/scripts/add_widget_target.py")
    "Shared/WidgetModels.swift"
    = "/Dequeue/Shared/WidgetModels.swift".
Proof.
  destruct (project_root_at_top "scripts" "add_widget_target.py")
    as (Hroot & Hpath & Hfull); [discriminate|reflexivity|reflexivity|].
  split; [exact Hroot|]. split; [exact Hpath|].
  exact (Hfull "Shared/WidgetModels.swift" eq_refl).
Defined.

Lemma endswith_sep_snoc (l : list ascii) (c : ascii) :
  OsPath.endswith_sep (String.string_of_list_ascii (l ++ [c]))
  = OsPath.is_sep c.
Proof.
  induction l as [|c' l IH]; [reflexivity|].
  cbn. rewrite IH. by destruct l.
Qed.

(** [dirname] ends with a separator only when it is made of separators. *)
Lemma dirname_trailing_sep (p : string) :
  OsPath.endswith_sep (OsPath.dirname p) = true ->
  forallb OsPath.is_sep (String.list_ascii_of_string (OsPath.dirname p)) = true.
Proof.
  unfold OsPath.dirname.
  set (head := rev (OsPath.drop_while _ _)).
  destruct (forallb OsPath.is_sep head) eqn:Hall.
  - intros _. by rewrite String.list_ascii_of_string_of_list_ascii.
  - assert (forall l, OsPath.drop_while OsPath.is_sep l = [] \/
              exists c r, OsPath.drop_while OsPath.is_sep l = c :: r
                          /\ OsPath.is_sep c = false) as Hdw.
    { induction l as [|c l IH]; cbn; [by left|].
      destruct (OsPath.is_sep c) eqn:Hc; [done|]. right. by exists c, l. }
    destruct (Hdw (rev head)) as [-> | (c & r & -> & Hc)]; [done|].
    cbn [rev]. by rewrite endswith_sep_snoc, Hc.
Qed.

(** X4.  Whatever path the script has, the project root it computes is a
    beginning of that path, and it ends with a separator only when it
    consists of separators (the top directory). *)
Theorem project_root_is_an_ancestor (file : string) :
  (exists rest, file = project_root file +:+ rest) /\
  (OsPath.endswith_sep (project_root file) = false \/
   forallb OsPath.is_sep
     (String.list_ascii_of_string (project_root file)) = true).
Proof.
  split.
  - unfold project_root.
    destruct (dirname_prefix file) as [r1 H1].
    destruct (dirname_prefix (OsPath.dirname file)) as [r2 H2].
    exists (r2 +:+ r1). rewrite <- str_app_assoc, <- H2. exact H1.
  - destruct (OsPath.endswith_sep (project_root file)) eqn:Hend; [|by left].
    right. by apply dirname_trailing_sep.
Qed.

(** ** What every run does, whatever the library answers *)

Section EveryRun.
Context (L : PbxLibrary) (g : Globals).

Lemma added_calls_app (t1 t2 : list Event) :
  added_calls (t1 ++ t2) = added_calls t1 ++ added_calls t2.
Proof.
  induction t1 as [|[] t1 IH]; cbn; try done. by rewrite IH.
Qed.

Lemma added_calls_prints (t : list Event) :
  forallb is_print t = true -> added_calls t = [].
Proof.
  induction t as [|[] t IH]; cbn; try done.
Qed.

Lemma instruction_events_prints :
  forallb is_print (instruction_events g) = true.
Proof.
  apply forallb_forall. intros ev Hin.
  pose proof (instruction_events_forall g (fun ev => is_print ev = true)) as Hall.
  rewrite Forall_forall in Hall.
  apply Hall; [done|]. by apply list_elem_of_In.
Qed.

(** Also when a call raises, the add-file calls of the loop are the first
    of those for the listed sources found on disk. *)
Lemma loop_calls_prefix (sources : list string) (d : FS) (pr : Project L) :
  added_calls (expected_loop_trace L g sources d pr)
  `prefix_of`
  map (fun s => (full_path g s, None, "Dequeue"))
    (List.filter (fun s => path_exists d (full_path g s)) sources).
Proof.
  revert pr. induction sources as [|s rest IH]; intros pr;
    cbn [expected_loop_trace List.filter]; [done|].
  destruct (path_exists d (full_path g s)) eqn:Hex.
  - destruct (lib_add_file L (full_path g s) None "Dequeue" d pr)
      as [[pr' v]|e]; cbn.
    + apply prefix_cons, IH.
    + apply prefix_cons, prefix_nil.
  - cbn. apply IH.
Qed.

Lemma calls_for_present_on_disk (d : FS) :
  Forall (fun c => path_exists d c.1.1 = true /\ c.1.2 = None
                   /\ c.2 = "Dequeue")
    (calls_for_present g d).
Proof.
  unfold calls_for_present. apply Forall_forall. intros c Hin.
  apply list_elem_of_In, in_map_iff in Hin as (s & <- & Hs).
  apply filter_In in Hs as [_ Hs]. by cbn.
Qed.

Lemma main_outcome_calls (d : FS) :
  added_calls (main_outcome L g d).2 `prefix_of` calls_for_present g d.
Proof.
  unfold main_outcome.
  destruct (lib_load L (PROJECT_PATH g) d) as [pr|e]; [|apply prefix_nil].
  destruct (lib_get_targets L pr) as [ts|e]; [|apply prefix_nil].
  destruct (guard_fires g ts); [apply prefix_nil|].
  pose proof (loop_calls_prefix (SHARED_SOURCES g) d pr) as Hloop.
  destruct (added_handle L g (SHARED_SOURCES g) d pr) as [pr1|e];
    [|exact Hloop].
  destruct (lib_save L pr1 d) as [[[]|e] d']; cbn [snd];
    rewrite !added_calls_app, ?(added_calls_prints _ instruction_events_prints);
    cbn; by rewrite ?app_nil_r.
Qed.

End EveryRun.

(** X5.  In every run, also one cut short by an exception, the add-file
    calls are the first of the calls for the listed shared sources found
    on the disk the run started on, in list order: the script never asks
    the library to add a file that is not on disk, never names a parent
    or a target other than [Dequeue], and makes at most one call per
    listed source. *)
Theorem add_file_only_for_sources_on_disk
    (L : PbxLibrary) (g : Globals) (w : World) :
  exists evs,
    trace (snd (main L g w)) = trace w ++ evs /\
    added_calls evs `prefix_of` calls_for_present g (disk w) /\
    Forall (fun c => path_exists (disk w) c.1.1 = true /\ c.1.2 = None
                     /\ c.2 = "Dequeue")
      (added_calls evs) /\
    length (added_calls evs) <= length (SHARED_SOURCES g).
Proof.
  rewrite main_run.
  pose proof (main_outcome_calls L g (disk w)) as Hpre.
  destruct (main_outcome L g (disk w)) as [[r d'] evs]. cbn [snd] in Hpre.
  exists evs. split; [done|]. split; [done|].
  destruct Hpre as [k Hk]. split.
  - pose proof (calls_for_present_on_disk g (disk w)) as Hall.
    rewrite Hk in Hall. by apply Forall_app in Hall as [Hall _].
  - apply (f_equal length) in Hk.
    unfold calls_for_present in Hk.
    rewrite length_map, length_app in Hk.
    pose proof (filter_length_le
                  (fun s => path_exists (disk w) (full_path g s))
                  (SHARED_SOURCES g)).
    lia.
Qed.

(** X6.  In every run the disk changes through [save] alone and [save]
    is called at most once: either no save happened and the disk is what
    it was, or the events split around a single save, after which there
    are prints only, and the disk is what that call made of the one the
    run started on. *)
Theorem disk_changes_only_through_save
    (L : PbxLibrary) (g : Globals) (w : World) :
  exists evs,
    trace (snd (main L g w)) = trace w ++ evs /\
    ((~ In EvSave evs /\ disk (snd (main L g w)) = disk w)
     \/
     (exists before after (pr1 : Project L),
        evs = before ++ EvSave :: after /\
        ~ In EvSave before /\
        forallb is_print after = true /\
        disk (snd (main L g w)) = snd (lib_save L pr1 (disk w)))).
Proof.
  rewrite main_run. unfold main_outcome.
  destruct (lib_load L (PROJECT_PATH g) (disk w)) as [pr|e].
  2:{ eexists. split; [reflexivity|]. left. split; [|done].
      cbn. intuition discriminate. }
  destruct (lib_get_targets L pr) as [ts|e].
  2:{ eexists. split; [reflexivity|]. left. split; [|done].
      cbn. intuition discriminate. }
  destruct (guard_fires g ts).
  { eexists. split; [reflexivity|]. left. split; [|done].
    cbn. intuition discriminate. }
  assert (~ In EvSave
            (head_events g
             ++ [EvGetTargets; EvPrint "Adding widget source files..."]
             ++ expected_loop_trace L g (SHARED_SOURCES g) (disk w) pr))
    as Hloop.
  { rewrite !in_app_iff. intros [Hin|[Hin|Hin]].
    - cbn in Hin. intuition discriminate.
    - cbn in Hin. intuition discriminate.
    - by apply expected_loop_trace_no_save in Hin. }
  destruct (added_handle L g (SHARED_SOURCES g) (disk w) pr) as [pr1|e].
  2:{ eexists. split; [reflexivity|]. left. by split. }
  set (before :=
         (head_events g
          ++ [EvGetTargets; EvPrint "Adding widget source files..."]
          ++ expected_loop_trace L g (SHARED_SOURCES g) (disk w) pr)
         ++ [EvPrint "Saving project..."]).
  assert (~ In EvSave before) as Hbefore.
  { unfold before. rewrite in_app_iff. intros [Hin|Hin]; [done|].
    cbn in Hin. intuition discriminate. }
  destruct (lib_save L pr1 (disk w)) as [[[]|e] d'] eqn:Hsave.
  - eexists. split; [reflexivity|]. right.
    exists before, (instruction_events g), pr1.
    rewrite Hsave. split; [|split; [done|split; [|done]]].
    + unfold before. by rewrite <- !app_assoc.
    + apply instruction_events_prints.
  - eexists. split; [reflexivity|]. right.
    exists before, [], pr1.
    rewrite Hsave. split; [|split; [done|split; done]].
    unfold before. by rewrite <- !app_assoc.
Qed.

(** X7.  When a run succeeds.  [main] returns normally exactly when the
    project loads, its targets can be listed, and either a target is
    named as the guard asks or every add-file call of the loop returns
    and [save] returns; the exit status is then 0, and 1 otherwise. *)
Theorem run_succeeds_iff (L : PbxLibrary) (g : Globals) (w : World) :
  (fst (main L g w) = Ok tt <->
   exists (pr : Project L) (ts : list Target),
     lib_load L (PROJECT_PATH g) (disk w) = Ok pr /\
     lib_get_targets L pr = Ok ts /\
     (guard_fires g ts = true \/
      exists pr1,
        added_handle L g (SHARED_SOURCES g) (disk w) pr = Ok pr1 /\
        fst (lib_save L pr1 (disk w)) = Ok tt))
  /\
  (exit_status (fst (main L g w)) = 0%Z <-> fst (main L g w) = Ok tt).
Proof.
  split.
  2:{ destruct (fst (main L g w)) as [[]|e]; cbn; split; done. }
  rewrite main_run. unfold main_outcome.
  destruct (lib_load L (PROJECT_PATH g) (disk w)) as [pr|e] eqn:Hload.
  2:{ split; [done|]. by intros (pr & ts & [=] & _). }
  destruct (lib_get_targets L pr) as [ts|e] eqn:Hts.
  2:{ split; [done|]. intros (pr' & ts & Hl & Ht & _). congruence. }
  destruct (guard_fires g ts) eqn:Hguard.
  { split; [|done]. intros _. exists pr, ts. auto. }
  destruct (added_handle L g (SHARED_SOURCES g) (disk w) pr) as [pr1|e]
    eqn:Hloop.
  2:{ split; [done|].
      intros (pr' & ts' & Hl & Ht & [Hg | (pr1 & Hh & _)]); congruence. }
  destruct (lib_save L pr1 (disk w)) as [[[]|e] d'] eqn:Hsave.
  - split; [|done]. intros _. exists pr, ts.
    split; [done|]. split; [done|]. right. exists pr1. by rewrite Hsave.
  - split; [done|].
    intros (pr' & ts' & Hl & Ht & [Hg | (pr1' & Hh & Hs)]); [congruence|].
    assert (pr1' = pr1) as -> by congruence.
    by rewrite Hsave in Hs.
Qed.
